(** * smart-grainer: rendering pipeline and selection editor

    A shallow embedding of the TypeScript front end of the granular sampler:

    - [Audio]    : [frontend/src/utils/audio.ts]      (mono down-mix)
    - [Wasm]     : the engine wrapper [GranularInstance] (set waveform,
                   render one 128-sample frame, free)
    - [Store]    : [frontend/src/store/useGranularStore.ts]
    - [Worklet]  : the [GranularProcessor] audio worklet (frame queue)
    - [Waveform] : the selection editor of the waveform canvas
    - [Control]  : [processOffline] of [GranularControl.tsx]

    Numbers.  JavaScript numbers are IEEE doubles and [Float32Array] cells
    are IEEE singles.  Audio samples are kept abstract behind the
    [SampleOps] interface (addition, division by a count, truthiness, zero,
    NaN); a concrete instance over exact rationals is used for evaluation.
    Sample indices and pixel columns are integers ([Z]); the two coordinate
    maps of the selection editor compute [Math.floor ((a / b) * c)] in
    binary64, as the code does ([Double]).  Control values of the parameter
    set are rationals ([Q]). *)

From Stdlib Require Import ZArith QArith Lia String SpecFloat.
From stdpp Require Import base list.

Local Open Scope nat_scope.

(** ** JavaScript helpers *)

Module JS.

(** A call either returns a value or throws an [Error] with a message. *)
Inductive result (A : Type) : Type :=
| Ok (a : A)
| Throw (msg : string).
Arguments Ok {A} a.
Arguments Throw {A} msg.

Definition bind {A B} (r : result A) (k : A -> result B) : result B :=
  match r with
  | Ok a => k a
  | Throw msg => Throw msg
  end.

Definition is_ok {A} (r : result A) : bool :=
  match r with Ok _ => true | Throw _ => false end.

(** [for (let i = lo; i < hi; i++) body] threading the mutated state. *)
Definition for_loop {S : Type} (lo hi : nat) (body : nat -> S -> S) (s : S) : S :=
  foldl (fun acc i => body i acc) s (seq lo (hi - lo)).

(** The same loop when the body may throw: the first exception ends it. *)
Fixpoint for_loop_r {S : Type} (count lo : nat)
         (body : nat -> S -> result S) (s : S) : result S :=
  match count with
  | O => Ok s
  | Datatypes.S count' => bind (body lo s) (for_loop_r count' (Datatypes.S lo) body)
  end.

(** [Math.ceil (n / d)] on non-negative integers. *)
Definition ceil_div (n d : nat) : nat :=
  n / d + (if n mod d =? 0 then 0 else 1).

(** [target.set (source, offset)] on typed arrays: a [RangeError] when the
    source does not fit, otherwise the cells are overwritten. *)
Definition typed_set {A} (target source : list A) (offset : nat) : result (list A) :=
  if offset + length source <=? length target
  then Ok (take offset target ++ source ++ drop (offset + length source) target)
  else Throw "RangeError: offset is out of bounds".

(** [a.slice (0, n)]. *)
Definition slice0 {A} (a : list A) (n : nat) : list A := take n a.

End JS.

#[export] Instance result_bind : MBind JS.result := fun _ _ k r => JS.bind r k.
#[export] Instance result_ret : MRet JS.result := fun _ a => JS.Ok a.

(** ** Audio samples *)

Class SampleOps (T : Type) : Type := {
  s_zero : T;                 (* the number 0 *)
  s_nan : T;                  (* what an [undefined] operand turns into *)
  s_add : T -> T -> T;        (* [x + y] *)
  s_div : T -> nat -> T;      (* [x / n] for a literal count [n] *)
  s_truthy : T -> bool        (* ToBoolean: false on 0 and NaN *)
}.

(** Exact rationals extended with NaN. *)
Definition qsample : Type := option Q.

Definition q_add (x y : qsample) : qsample :=
  match x, y with
  | Some a, Some b => Some (a + b)%Q
  | _, _ => None
  end.

Definition q_div (x : qsample) (n : nat) : qsample :=
  match x with
  | Some a => if n =? 0 then None else Some (a / inject_Z (Z.of_nat n))%Q
  | None => None
  end.

Definition q_truthy (x : qsample) : bool :=
  match x with
  | Some a => negb (Qeq_bool a 0)
  | None => false
  end.

#[export] Instance qsample_ops : SampleOps qsample := {
  s_zero := Some 0%Q;
  s_nan := None;
  s_add := q_add;
  s_div := q_div;
  s_truthy := q_truthy
}.

(** Equality of two samples as numbers. *)
Definition q_same (x y : qsample) : bool :=
  match x, y with
  | Some a, Some b => Qeq_bool a b
  | None, None => true
  | _, _ => false
  end.

(** [a[i]] read as a number: an index past the end gives [undefined]. *)
Definition read {T} `{SampleOps T} (a : list T) (i : nat) : T :=
  default s_nan (a !! i).

(** ** Down-mix of a decoded buffer ([frontend/src/utils/audio.ts]) *)

Module Audio.

(** A Web Audio [AudioBuffer]: its length in sample frames, its sample rate
    and one array per channel. *)
Record AudioBuffer (T : Type) : Type := mkAudioBuffer {
  ab_length : nat;
  ab_sampleRate : Z;
  ab_channels : list (list T)
}.
Arguments mkAudioBuffer {T} _ _ _.
Arguments ab_length {T} _.
Arguments ab_sampleRate {T} _.
Arguments ab_channels {T} _.

(** What the platform guarantees of every [AudioBuffer]: at least one
    channel, and every channel as long as the buffer. *)
Definition wf {T} (b : AudioBuffer T) : Prop :=
  ab_channels b <> [] /\ Forall (fun c => length c = ab_length b) (ab_channels b).

Definition numberOfChannels {T} (b : AudioBuffer T) : nat :=
  length (ab_channels b).

Definition getChannelData {T} (b : AudioBuffer T) (k : nat) : JS.result (list T) :=
  match ab_channels b !! k with
  | Some c => JS.Ok c
  | None => JS.Throw "IndexSizeError"
  end.

(** [audioBufferToFloat32Array], lines 14-30. *)
Definition audioBufferToFloat32Array {T} `{SampleOps T}
    (buffer : AudioBuffer T) : JS.result (list T) :=
  if numberOfChannels buffer =? 1 then getChannelData buffer 0
  else
    left ← getChannelData buffer 0;
    right ← (if 1 <? numberOfChannels buffer
             then getChannelData buffer 1 else JS.Ok left);
    let mono := replicate (length left) s_zero in
    JS.Ok (JS.for_loop 0 (length left)
             (fun i mono => <[i := s_div (s_add (read left i) (read right i)) 2]> mono)
             mono).

(** The down-mix in the specification's words: sample [i] of the result is
    the sum of sample [i] of every channel divided by the channel count. *)
Definition channel_average {T} `{SampleOps T} (chans : list (list T)) (i : nat) : T :=
  match chans with
  | [] => s_nan
  | c :: rest =>
      s_div (foldl (fun acc ch => s_add acc (read ch i)) (read c i) rest)
            (length chans)
  end.

End Audio.

(** ** The engine wrapper ([wasm.ts]) *)

Module Wasm.

(** [GranularParams]: the seventeen fields of the interface, in the order
    of its declaration. *)
Record GranularParams : Type := mkParams {
  selectionStartSampleIx : Z;
  selectionEndSampleIx : Z;
  grainSize : Q;
  voice1FilterCutoff : Q;
  voice2FilterCutoff : Q;
  linearSlopeLength : Q;
  slopeLinearity : Q;
  voice1MovementSamplesPerSample : Q;
  voice2MovementSamplesPerSample : Q;
  voice1SampleSpeedRatio : Q;
  voice2SampleSpeedRatio : Q;
  voice1SamplesBetweenGrains : Q;
  voice2SamplesBetweenGrains : Q;
  voice1Gain : Q;
  voice2Gain : Q;
  voice1GrainStartRandomnessSamples : Q;
  voice2GrainStartRandomnessSamples : Q
}.

(** The compiled engine ([audio-engine/pkg]) is not part of the front end:
    its four exports and the [Float32Array] view of its linear memory are
    an interface.  [W] is the whole engine state, memory included; pointers
    are byte addresses. *)
Class Engine (T W : Type) : Type := {
  create_granular_instance : W -> W * Z;
  get_granular_waveform_ptr : W -> Z -> nat -> W * Z;
  render_granular : W -> Z -> list Q -> W * Z;
  free_granular_instance : W -> Z -> W;
  mem_read : W -> Z -> T;
  mem_write : W -> Z -> T -> W
}.

(** The module-level variables [wasmInitialized] and [wasmModule]. *)
Record Runtime (W : Type) : Type := mkRuntime {
  wasmInitialized : bool;
  wasmModule : option W
}.
Arguments mkRuntime {W} _ _.
Arguments wasmInitialized {W} _.
Arguments wasmModule {W} _.

Definition isWasmInitialized {W} (rt : Runtime W) : bool := wasmInitialized rt.

(** [class GranularInstance]: its only field is the engine pointer, [null]
    once freed. *)
Record GranularInstance : Type := mkInstance {
  instancePtr : option Z
}.

Definition freed_message : string := "Granular instance has been freed".
Definition no_memory_message : string :=
  "WASM module not initialized or memory not available".
Definition not_initialized_message : string :=
  "WASM module not initialized. Call initWasm() first.".

(** The arguments handed to [render_granular] after the instance pointer,
    lines 95-111. *)
Definition render_args (params : GranularParams) : list Q :=
  [ inject_Z (selectionStartSampleIx params);
    inject_Z (selectionEndSampleIx params);
    grainSize params;
    voice1FilterCutoff params;
    voice2FilterCutoff params;
    linearSlopeLength params;
    slopeLinearity params;
    voice1MovementSamplesPerSample params;
    voice2MovementSamplesPerSample params;
    voice1SampleSpeedRatio params;
    voice2SampleSpeedRatio params;
    voice1SamplesBetweenGrains params;
    voice2SamplesBetweenGrains params;
    voice1Gain params;
    voice2Gain params;
    voice1GrainStartRandomnessSamples params;
    voice2GrainStartRandomnessSamples params ].

Section WithEngine.
Context {T W : Type} `{SampleOps T} `{Engine T W}.

(** [new GranularInstance ()], lines 47-52.  Without a loaded module the
    export itself cannot be called. *)
Definition newGranularInstance (rt : Runtime W)
    : JS.result (Runtime W * GranularInstance) :=
  if negb (wasmInitialized rt) then JS.Throw not_initialized_message
  else match wasmModule rt with
       | None => JS.Throw no_memory_message
       | Some w =>
           let '(w1, ptr) := create_granular_instance w in
           JS.Ok (mkRuntime (wasmInitialized rt) (Some w1), mkInstance (Some ptr))
       end.

(** [createGranularInstance], lines 185-190. *)
Definition createGranularInstance (rt : Runtime W)
    : JS.result (Runtime W * GranularInstance) :=
  if negb (wasmInitialized rt) then JS.Throw not_initialized_message
  else newGranularInstance rt.

(** [setWaveform], lines 58-81. *)
Definition setWaveform (rt : Runtime W) (this : GranularInstance)
    (waveform : list T) : JS.result (Runtime W) :=
  match instancePtr this with
  | None => JS.Throw freed_message
  | Some p =>
      match wasmModule rt with
      | None => JS.Throw no_memory_message
      | Some w =>
          let len := length waveform in
          let '(w1, ptr) := get_granular_waveform_ptr w p len in
          let offset := (ptr / 4)%Z in
          let w2 := JS.for_loop 0 len
                      (fun i mem => mem_write mem (offset + Z.of_nat i)%Z (read waveform i))
                      w1 in
          JS.Ok (mkRuntime (wasmInitialized rt) (Some w2))
      end
  end.

(** [renderFrame], lines 88-129. *)
Definition renderFrame (rt : Runtime W) (this : GranularInstance)
    (params : GranularParams) : JS.result (Runtime W * list T) :=
  match instancePtr this with
  | None => JS.Throw freed_message
  | Some p =>
      match wasmModule rt with
      | None => JS.Throw no_memory_message
      | Some w =>
          let '(w1, outputPtr) := render_granular w p (render_args params) in
          let offset := (outputPtr / 4)%Z in
          let output := replicate 128 s_zero in
          let output := JS.for_loop 0 128
                          (fun i out => <[i := mem_read w1 (offset + Z.of_nat i)%Z]> out)
                          output in
          JS.Ok (mkRuntime (wasmInitialized rt) (Some w1), output)
      end
  end.

(** [free], lines 134-139: guarded by [instancePtr !== null]. *)
Definition free (rt : Runtime W) (this : GranularInstance)
    : JS.result (Runtime W * GranularInstance) :=
  match instancePtr this with
  | Some p =>
      match wasmModule rt with
      | None => JS.Throw no_memory_message
      | Some w =>
          JS.Ok (mkRuntime (wasmInitialized rt) (Some (free_granular_instance w p)),
                 mkInstance None)
      end
  | None => JS.Ok (rt, this)
  end.

(** One engine render and the 128 cells read back after it. *)
Definition engine_render (p : Z) (params : GranularParams) (w : W) : W * list T :=
  let '(w1, outputPtr) := render_granular w p (render_args params) in
  (w1, map (fun i => mem_read w1 (outputPtr / 4 + Z.of_nat i)%Z) (seq 0 128)).

(** [n] engine renders one after the other, with the frames in call order. *)
Fixpoint render_sequence (n : nat) (p : Z) (params : GranularParams) (w : W)
    : W * list (list T) :=
  match n with
  | O => (w, [])
  | S n' =>
      let '(w1, frame) := engine_render p params w in
      let '(w2, frames) := render_sequence n' p params w1 in
      (w2, frame :: frames)
  end.

End WithEngine.

End Wasm.

(** ** The store ([frontend/src/store/useGranularStore.ts]) *)

Module Store.

(** [interface GranularState], the data fields.  The three Web Audio
    handles are opaque identifiers. *)
Record GranularState (T : Type) : Type := mkState {
  audioBuffer : option (Audio.AudioBuffer T);
  processedBuffer : option (list T);
  granularInstance : option Wasm.GranularInstance;
  selectionStartSampleIx : Z;
  selectionEndSampleIx : Z;
  grainSize : Q;
  voice1FilterCutoff : Q;
  voice2FilterCutoff : Q;
  linearSlopeLength : Q;
  slopeLinearity : Q;
  voice1MovementSamplesPerSample : Q;
  voice2MovementSamplesPerSample : Q;
  voice1SampleSpeedRatio : Q;
  voice2SampleSpeedRatio : Q;
  voice1SamplesBetweenGrains : Q;
  voice2SamplesBetweenGrains : Q;
  voice1Gain : Q;
  voice2Gain : Q;
  voice1GrainStartRandomnessSamples : Q;
  voice2GrainStartRandomnessSamples : Q;
  density : Q;
  isPlaying : bool;
  audioContext : option nat;
  sourceNode : option nat;
  workletNode : option nat
}.
Arguments mkState {T}.
Arguments audioBuffer {T} _.
Arguments processedBuffer {T} _.
Arguments granularInstance {T} _.
Arguments selectionStartSampleIx {T} _.
Arguments selectionEndSampleIx {T} _.
Arguments grainSize {T} _.
Arguments voice1FilterCutoff {T} _.
Arguments voice2FilterCutoff {T} _.
Arguments linearSlopeLength {T} _.
Arguments slopeLinearity {T} _.
Arguments voice1MovementSamplesPerSample {T} _.
Arguments voice2MovementSamplesPerSample {T} _.
Arguments voice1SampleSpeedRatio {T} _.
Arguments voice2SampleSpeedRatio {T} _.
Arguments voice1SamplesBetweenGrains {T} _.
Arguments voice2SamplesBetweenGrains {T} _.
Arguments voice1Gain {T} _.
Arguments voice2Gain {T} _.
Arguments voice1GrainStartRandomnessSamples {T} _.
Arguments voice2GrainStartRandomnessSamples {T} _.
Arguments density {T} _.
Arguments isPlaying {T} _.
Arguments audioContext {T} _.
Arguments sourceNode {T} _.
Arguments workletNode {T} _.

(** [initialState], lines 88-114. *)
Definition initialState {T} : GranularState T :=
  mkState None None None 0%Z 0%Z 800 0 0 (1 # 2) (1 # 2) (1 # 10) (1 # 10)
          1 1 400 400 1 1 200 0 20 false None None None.

(** The actions, lines 119-152: each [set] merges the given fields into the
    state. *)
Definition setAudioBuffer {T} (buffer : option (Audio.AudioBuffer T))
    (s : GranularState T) : GranularState T :=
  let 'mkState _ pb gi ss se gs f1 f2 sl li m1 m2 r1 r2 b1 b2 g1 g2 j1 j2 d ip ac sn wn := s in
  let s1 := mkState buffer pb gi ss se gs f1 f2 sl li m1 m2 r1 r2 b1 b2 g1 g2 j1 j2 d ip ac sn wn in
  match buffer with
  | Some b =>
      mkState buffer pb gi 0%Z (Z.of_nat (Audio.ab_length b))
              gs f1 f2 sl li m1 m2 r1 r2 b1 b2 g1 g2 j1 j2 d ip ac sn wn
  | None => s1
  end.

Definition setProcessedBuffer {T} (buffer : option (list T))
    (s : GranularState T) : GranularState T :=
  let 'mkState ab _ gi ss se gs f1 f2 sl li m1 m2 r1 r2 b1 b2 g1 g2 j1 j2 d ip ac sn wn := s in
  mkState ab buffer gi ss se gs f1 f2 sl li m1 m2 r1 r2 b1 b2 g1 g2 j1 j2 d ip ac sn wn.

Definition setGranularInstance {T} (instance : option Wasm.GranularInstance)
    (s : GranularState T) : GranularState T :=
  let 'mkState ab pb _ ss se gs f1 f2 sl li m1 m2 r1 r2 b1 b2 g1 g2 j1 j2 d ip ac sn wn := s in
  mkState ab pb instance ss se gs f1 f2 sl li m1 m2 r1 r2 b1 b2 g1 g2 j1 j2 d ip ac sn wn.

Definition setSelectionStartSampleIx {T} (value : Z)
    (s : GranularState T) : GranularState T :=
  let 'mkState ab pb gi _ se gs f1 f2 sl li m1 m2 r1 r2 b1 b2 g1 g2 j1 j2 d ip ac sn wn := s in
  mkState ab pb gi value se gs f1 f2 sl li m1 m2 r1 r2 b1 b2 g1 g2 j1 j2 d ip ac sn wn.

Definition setSelectionEndSampleIx {T} (value : Z)
    (s : GranularState T) : GranularState T :=
  let 'mkState ab pb gi ss _ gs f1 f2 sl li m1 m2 r1 r2 b1 b2 g1 g2 j1 j2 d ip ac sn wn := s in
  mkState ab pb gi ss value gs f1 f2 sl li m1 m2 r1 r2 b1 b2 g1 g2 j1 j2 d ip ac sn wn.

Definition setDensity {T} (value : Q) (s : GranularState T) : GranularState T :=
  let 'mkState ab pb gi ss se gs f1 f2 sl li m1 m2 r1 r2 b1 b2 g1 g2 j1 j2 _ ip ac sn wn := s in
  mkState ab pb gi ss se gs f1 f2 sl li m1 m2 r1 r2 b1 b2 g1 g2 j1 j2 value ip ac sn wn.

Definition setIsPlaying {T} (playing : bool) (s : GranularState T) : GranularState T :=
  let 'mkState ab pb gi ss se gs f1 f2 sl li m1 m2 r1 r2 b1 b2 g1 g2 j1 j2 d _ ac sn wn := s in
  mkState ab pb gi ss se gs f1 f2 sl li m1 m2 r1 r2 b1 b2 g1 g2 j1 j2 d playing ac sn wn.

Definition setAudioContext {T} (ctx : option nat) (s : GranularState T) : GranularState T :=
  let 'mkState ab pb gi ss se gs f1 f2 sl li m1 m2 r1 r2 b1 b2 g1 g2 j1 j2 d ip _ sn wn := s in
  mkState ab pb gi ss se gs f1 f2 sl li m1 m2 r1 r2 b1 b2 g1 g2 j1 j2 d ip ctx sn wn.

Definition setSourceNode {T} (node : option nat) (s : GranularState T) : GranularState T :=
  let 'mkState ab pb gi ss se gs f1 f2 sl li m1 m2 r1 r2 b1 b2 g1 g2 j1 j2 d ip ac _ wn := s in
  mkState ab pb gi ss se gs f1 f2 sl li m1 m2 r1 r2 b1 b2 g1 g2 j1 j2 d ip ac node wn.

Definition setWorkletNode {T} (node : option nat) (s : GranularState T) : GranularState T :=
  let 'mkState ab pb gi ss se gs f1 f2 sl li m1 m2 r1 r2 b1 b2 g1 g2 j1 j2 d ip ac sn _ := s in
  mkState ab pb gi ss se gs f1 f2 sl li m1 m2 r1 r2 b1 b2 g1 g2 j1 j2 d ip ac sn node.

(** [getGranularParams], lines 154-175. *)
Definition getGranularParams {T} (state : GranularState T) : Wasm.GranularParams :=
  {| Wasm.selectionStartSampleIx := selectionStartSampleIx state;
     Wasm.selectionEndSampleIx := selectionEndSampleIx state;
     Wasm.grainSize := grainSize state;
     Wasm.voice1FilterCutoff := voice1FilterCutoff state;
     Wasm.voice2FilterCutoff := voice2FilterCutoff state;
     Wasm.linearSlopeLength := linearSlopeLength state;
     Wasm.slopeLinearity := slopeLinearity state;
     Wasm.voice1MovementSamplesPerSample := voice1MovementSamplesPerSample state;
     Wasm.voice2MovementSamplesPerSample := voice2MovementSamplesPerSample state;
     Wasm.voice1SampleSpeedRatio := voice1SampleSpeedRatio state;
     Wasm.voice2SampleSpeedRatio := voice2SampleSpeedRatio state;
     Wasm.voice1SamplesBetweenGrains := voice1SamplesBetweenGrains state;
     Wasm.voice2SamplesBetweenGrains := voice2SamplesBetweenGrains state;
     Wasm.voice1Gain := voice1Gain state;
     Wasm.voice2Gain := voice2Gain state;
     Wasm.voice1GrainStartRandomnessSamples := voice1GrainStartRandomnessSamples state;
     Wasm.voice2GrainStartRandomnessSamples := voice2GrainStartRandomnessSamples state |}.

(** Two states that differ at most in the legacy [density] field and in the
    playback fields. *)
Definition same_engine_fields {T} (s1 s2 : GranularState T) : Prop :=
  selectionStartSampleIx s1 = selectionStartSampleIx s2 /\
  selectionEndSampleIx s1 = selectionEndSampleIx s2 /\
  grainSize s1 = grainSize s2 /\
  voice1FilterCutoff s1 = voice1FilterCutoff s2 /\
  voice2FilterCutoff s1 = voice2FilterCutoff s2 /\
  linearSlopeLength s1 = linearSlopeLength s2 /\
  slopeLinearity s1 = slopeLinearity s2 /\
  voice1MovementSamplesPerSample s1 = voice1MovementSamplesPerSample s2 /\
  voice2MovementSamplesPerSample s1 = voice2MovementSamplesPerSample s2 /\
  voice1SampleSpeedRatio s1 = voice1SampleSpeedRatio s2 /\
  voice2SampleSpeedRatio s1 = voice2SampleSpeedRatio s2 /\
  voice1SamplesBetweenGrains s1 = voice1SamplesBetweenGrains s2 /\
  voice2SamplesBetweenGrains s1 = voice2SamplesBetweenGrains s2 /\
  voice1Gain s1 = voice1Gain s2 /\
  voice2Gain s1 = voice2Gain s2 /\
  voice1GrainStartRandomnessSamples s1 = voice1GrainStartRandomnessSamples s2 /\
  voice2GrainStartRandomnessSamples s1 = voice2GrainStartRandomnessSamples s2.

End Store.

(** ** The audio worklet ([GranularProcessor]) *)

Module Worklet.

(** What a message from the main thread carries: [data.type] and the field
    that goes with it.  A [frame] that is missing or is not a
    [Float32Array] is [None]. *)
Inductive MessageData (T : Type) : Type :=
| UpdateParams (params : option (list (string * Q)))
| ProcessedFrame (frame : option (list T))
| OtherMessage.
Arguments UpdateParams {T} params.
Arguments ProcessedFrame {T} frame.
Arguments OtherMessage {T}.

Record GranularProcessor (T : Type) : Type := mkProcessor {
  outputBuffer : list (list T);
  params : list (string * Q)
}.
Arguments mkProcessor {T} _ _.
Arguments outputBuffer {T} _.
Arguments params {T} _.

(** The field initialisers, lines 22-61. *)
Definition initial {T} : GranularProcessor T :=
  mkProcessor []
    [ ("selectionStartSampleIx"%string, 0); ("selectionEndSampleIx"%string, 0);
      ("grainSize"%string, 800);
      ("voice1FilterCutoff"%string, 0); ("voice2FilterCutoff"%string, 0);
      ("linearSlopeLength"%string, 1 # 2); ("slopeLinearity"%string, 1 # 2);
      ("voice1MovementSamplesPerSample"%string, 1 # 10);
      ("voice2MovementSamplesPerSample"%string, 1 # 10);
      ("voice1SampleSpeedRatio"%string, 1); ("voice2SampleSpeedRatio"%string, 1);
      ("voice1SamplesBetweenGrains"%string, 400); ("voice2SamplesBetweenGrains"%string, 400);
      ("voice1Gain"%string, 1); ("voice2Gain"%string, 1);
      ("voice1GrainStartRandomnessSamples"%string, 200);
      ("voice2GrainStartRandomnessSamples"%string, 0) ]%Q.

(** [target[key] = value] on an object kept as a property list. *)
Fixpoint put (key : string) (value : Q) (target : list (string * Q))
    : list (string * Q) :=
  match target with
  | [] => [(key, value)]
  | (k, v) :: rest =>
      if String.eqb k key then (k, value) :: rest else (k, v) :: put key value rest
  end.

(** [Object.assign (target, source)]. *)
Definition object_assign (target source : list (string * Q)) : list (string * Q) :=
  foldl (fun acc kv => put (fst kv) (snd kv) acc) target source.

(** [port.onmessage], lines 67-83. *)
Definition onmessage {T} (this : GranularProcessor T) (data : MessageData T)
    : GranularProcessor T :=
  match data with
  | UpdateParams (Some ps) => mkProcessor (outputBuffer this) (object_assign (params this) ps)
  | UpdateParams None => this
  | ProcessedFrame (Some frame) => mkProcessor (outputBuffer this ++ [frame]) (params this)
  | ProcessedFrame None => this
  | OtherMessage => this
  end.

Section WithSample.
Context {T : Type} `{SampleOps T}.

(** [inputChannel[i] || 0]. *)
Definition or_zero (inputChannel : list T) (i : nat) : T :=
  match inputChannel !! i with
  | Some x => if s_truthy x then x else s_zero
  | None => s_zero
  end.

(** [process], lines 86-132.  Besides the processor and the (mutated)
    outputs, the local [processedFrame] is returned when a frame was
    shifted off the queue. *)
Definition process_frame (this : GranularProcessor T)
    (inputs outputs : list (list (list T)))
    : GranularProcessor T * list (list (list T)) * option (list T) :=
  match inputs !! 0, outputs !! 0 with
  | Some (inputChannel :: _), Some ((outputChannel :: _) as output) =>
      let frameLength := length outputChannel in
      match outputBuffer this with
      | processedFrame :: rest =>
          let copyLength := Nat.min frameLength (length processedFrame) in
          let outputChannel :=
            JS.for_loop 0 copyLength
              (fun i out => <[i := read processedFrame i]> out) outputChannel in
          let outputChannel :=
            JS.for_loop copyLength frameLength
              (fun i out => <[i := s_zero]> out) outputChannel in
          (mkProcessor rest (params this),
           <[0 := <[0 := outputChannel]> output]> outputs,
           Some processedFrame)
      | [] =>
          let outputChannel :=
            JS.for_loop 0 frameLength
              (fun i out => <[i := or_zero inputChannel i]> out) outputChannel in
          (this, <[0 := <[0 := outputChannel]> output]> outputs, None)
      end
  | _, _ => (this, outputs, None)
  end.

Definition process (this : GranularProcessor T)
    (inputs outputs : list (list (list T)))
    : GranularProcessor T * list (list (list T)) * bool :=
  let '(this', outputs', _) := process_frame this inputs outputs in
  (this', outputs', true).

(** What the worklet sees over time: messages on its port and render
    callbacks. *)
Inductive Event : Type :=
| Message (data : MessageData T)
| Callback (inputs outputs : list (list (list T))).

(** The frames of the messages that [onmessage] enqueues, in arrival order. *)
Fixpoint enqueued (evs : list Event) : list (list T) :=
  match evs with
  | [] => []
  | Message (ProcessedFrame (Some frame)) :: rest => frame :: enqueued rest
  | _ :: rest => enqueued rest
  end.

(** Runs the events in order; returns the processor and the frames the
    callbacks shifted off the queue, in callback order. *)
Fixpoint run (evs : list Event) (this : GranularProcessor T)
    : GranularProcessor T * list (list T) :=
  match evs with
  | [] => (this, [])
  | Message data :: rest => run rest (onmessage this data)
  | Callback inputs outputs :: rest =>
      let '(this', _, shifted) := process_frame this inputs outputs in
      let '(final, delivered) := run rest this' in
      (final, match shifted with Some f => f :: delivered | None => delivered end)
  end.

(** The first channel of the first output. *)
Definition first_channel (outputs : list (list (list T))) : option (list T) :=
  output ← outputs !! 0; output !! 0.

(** A queued frame cut or zero-padded to the quantum length. *)
Definition fit (frameLength : nat) (frame : list T) : list T :=
  take frameLength frame ++ replicate (frameLength - length frame) s_zero.

End WithSample.

End Worklet.

(** ** JavaScript numbers in the coordinate maps *)

Module Double.

Local Open Scope Z_scope.

(** IEEE 754 binary64, rounding to nearest, ties to even. *)
Definition prec : Z := 53.
Definition emax : Z := 1024.

(** The number an integer is as a JavaScript value. *)
Definition of_Z (z : Z) : spec_float := binary_normalize prec emax z 0 false.

(** [x * y] and [x / y]. *)
Definition mul (x y : spec_float) : spec_float := SFmul prec emax x y.
Definition div (x y : spec_float) : spec_float := SFdiv prec emax x y.

(** [Math.floor].  NaN and the infinities have no integer value and are
    taken as 0; they do not arise from a division by a non-zero length. *)
Definition floor (x : spec_float) : Z :=
  match x with
  | S754_finite s m e =>
      let v := if s then Z.neg m else Z.pos m in
      if 0 <=? e then v * 2 ^ e else v / 2 ^ (- e)
  | _ => 0
  end.

End Double.

(** ** The selection editor ([Waveform] component) *)

Module Waveform.

Local Open Scope Z_scope.

Definition MARKER_WIDTH : Z := 4.
Definition MARKER_HIT_RADIUS : Z := 8.
Definition SELECTION_HIT_MARGIN : Z := 5.

(** Canvas dimensions. *)
Definition width : Z := 1400.
Definition height : Z := 240.

Inductive DragState : Type :=
| none
| start_marker
| end_marker
| selection (startOffsetSamples : Z).

(** The component: the length of the displayed data and its two pieces of
    local state.  The canvas is mounted. *)
Record View : Type := mkView {
  data_length : nat;
  dragState : DragState;
  isDragging : bool
}.

(** [sampleToPixel]: [Math.floor ((sampleIx / data.length) * width)]. *)
Definition sampleToPixel (len : nat) (sampleIx : Z) : Z :=
  if (len =? 0)%nat then 0
  else Double.floor
         (Double.mul (Double.div (Double.of_Z sampleIx) (Double.of_Z (Z.of_nat len)))
                     (Double.of_Z width)).

(** [pixelToSample]: [Math.floor ((clampedX / width) * data.length)]. *)
Definition pixelToSample (len : nat) (pixelX : Z) : Z :=
  if (len =? 0)%nat then 0
  else
    let clampedX := Z.max 0 (Z.min width pixelX) in
    Double.floor
      (Double.mul (Double.div (Double.of_Z clampedX) (Double.of_Z width))
                  (Double.of_Z (Z.of_nat len))).

Arguments sampleToPixel : simpl never.
Arguments pixelToSample : simpl never.

Section WithState.
Context {T : Type}.
Abbreviation State := (Store.GranularState T).

(** [getDragType], lines 145-165 of the component. *)
Definition getDragType (v : View) (s : State) (x : Z) : DragState :=
  let startX := sampleToPixel (data_length v) (Store.selectionStartSampleIx s) in
  let endX := sampleToPixel (data_length v) (Store.selectionEndSampleIx s) in
  if Z.abs (x - startX) <? MARKER_HIT_RADIUS then start_marker
  else if Z.abs (x - endX) <? MARKER_HIT_RADIUS then end_marker
  else if (startX - SELECTION_HIT_MARGIN <=? x) && (x <=? endX + SELECTION_HIT_MARGIN)
       then selection 0
  else none.

(** [handleMouseDown], lines 168-197. *)
Definition handleMouseDown (x : Z) (v : View) (s : State) : View * State :=
  let len := data_length v in
  match getDragType v s x with
  | selection _ =>
      let clickSample := pixelToSample len x in
      let startOffsetSamples := clickSample - Store.selectionStartSampleIx s in
      (mkView len (selection startOffsetSamples) true, s)
  | start_marker => (mkView len start_marker true, s)
  | end_marker => (mkView len end_marker true, s)
  | none =>
      let sampleIx := pixelToSample len x in
      if Z.abs (x - sampleToPixel len (Store.selectionStartSampleIx s))
         <? Z.abs (x - sampleToPixel len (Store.selectionEndSampleIx s))
      then (v, Store.setSelectionStartSampleIx sampleIx s)
      else (v, Store.setSelectionEndSampleIx sampleIx s)
  end.

(** [handleMouseMove], lines 200-241. *)
Definition handleMouseMove (x : Z) (v : View) (s : State) : View * State :=
  if negb (isDragging v) then (v, s)
  else
    let len := Z.of_nat (data_length v) in
    let sampleIx := pixelToSample (data_length v) x in
    let selectionStartSampleIx := Store.selectionStartSampleIx s in
    let selectionEndSampleIx := Store.selectionEndSampleIx s in
    match dragState v with
    | none => (v, s)
    | start_marker =>
        let clamped := Z.min sampleIx (selectionEndSampleIx - 1) in
        (v, Store.setSelectionStartSampleIx (Z.max 0 clamped) s)
    | end_marker =>
        let clamped := Z.max sampleIx (selectionStartSampleIx + 1) in
        (v, Store.setSelectionEndSampleIx (Z.min len clamped) s)
    | selection startOffsetSamples =>
        let newStart := sampleIx - startOffsetSamples in
        let newEnd := newStart + (selectionEndSampleIx - selectionStartSampleIx) in
        if newStart <? 0 then
          let diff := 0 - newStart in
          (v, Store.setSelectionEndSampleIx (Z.min len (selectionEndSampleIx + diff))
                (Store.setSelectionStartSampleIx 0 s))
        else if len <? newEnd then
          let diff := newEnd - len in
          (v, Store.setSelectionStartSampleIx (Z.max 0 (selectionStartSampleIx - diff))
                (Store.setSelectionEndSampleIx len s))
        else
          (v, Store.setSelectionEndSampleIx newEnd
                (Store.setSelectionStartSampleIx newStart s))
    end.

(** [handleMouseUp] and [handleMouseLeave], lines 244-253. *)
Definition handleMouseUp (v : View) (s : State) : View * State :=
  (mkView (data_length v) none false, s).

Definition handleMouseLeave (v : View) (s : State) : View * State :=
  (mkView (data_length v) none false, s).

(** The pointer events of the canvas. *)
Inductive PointerEvent : Type :=
| MouseDown (x : Z)
| MouseMove (x : Z)
| MouseUp
| MouseLeave.

Definition handle (e : PointerEvent) (vs : View * State) : View * State :=
  match e with
  | MouseDown x => handleMouseDown x (fst vs) (snd vs)
  | MouseMove x => handleMouseMove x (fst vs) (snd vs)
  | MouseUp => handleMouseUp (fst vs) (snd vs)
  | MouseLeave => handleMouseLeave (fst vs) (snd vs)
  end.

Definition handle_all (evs : list PointerEvent) (vs : View * State) : View * State :=
  foldl (fun acc e => handle e acc) vs evs.

(** The selection invariant of the parameter set. *)
Definition selection_ok (v : View) (s : State) : Prop :=
  0 <= Store.selectionStartSampleIx s
  /\ Store.selectionStartSampleIx s < Store.selectionEndSampleIx s
  /\ Store.selectionEndSampleIx s <= Z.of_nat (data_length v).

Definition selection_width (s : State) : Z :=
  Store.selectionEndSampleIx s - Store.selectionStartSampleIx s.

End WithState.

End Waveform.

(** ** The offline renderer ([processOffline] of [GranularControl]) *)

Module Control.

Section WithEngine.
Context {T W : Type} `{SampleOps T} `{Wasm.Engine T W}.

(** One turn of the render loop, lines 175-178. *)
Definition render_into (inst : Wasm.GranularInstance) (params : Wasm.GranularParams)
    (i : nat) (acc : Wasm.Runtime W * list T) : JS.result (Wasm.Runtime W * list T) :=
  '(rt1, frame) ← Wasm.renderFrame (fst acc) inst params;
  output ← JS.typed_set (snd acc) frame (i * 128);
  JS.Ok (rt1, output).

(** [processOffline], lines 164-183. *)
Definition processOffline (rt : Wasm.Runtime W) (s : Store.GranularState T)
    : JS.result (Wasm.Runtime W * Store.GranularState T) :=
  match Store.granularInstance s, Store.audioBuffer s with
  | Some granularInstance, Some audioBuffer =>
      if negb (Wasm.isWasmInitialized rt) then JS.Ok (rt, s)
      else
        inputData ← Audio.audioBufferToFloat32Array audioBuffer;
        let numFrames := JS.ceil_div (length inputData) 128 in
        let output := replicate (numFrames * 128) s_zero in
        let params := Store.getGranularParams s in
        '(rt', output) ← JS.for_loop_r numFrames 0
                            (render_into granularInstance params) (rt, output);
        let trimmed := JS.slice0 output (length inputData) in
        JS.Ok (rt', Store.setProcessedBuffer (Some trimmed) s)
  | _, _ => JS.Ok (rt, s)
  end.

End WithEngine.

End Control.

(** ** An in-memory engine for evaluation *)

Module TestEngine.

(** The engine state: how many frames it rendered and the cells written
    into its memory (newest first). *)
Record state : Type := mkEngine {
  renders : nat;
  written : list (Z * qsample)
}.

Definition waveform_ptr : Z := 4096.
Definition output_ptr : Z := 1024.

Definition lookup_cell (cells : list (Z * qsample)) (ix : Z) : qsample :=
  match list_find (fun c => Z.eqb (fst c) ix = true) cells with
  | Some (_, c) => snd c
  | None => None
  end.

(** Reading the output region gives the number of the last render. *)
Definition test_read (w : state) (ix : Z) : qsample :=
  if ((output_ptr / 4 <=? ix) && (ix <? output_ptr / 4 + 128))%Z
  then Some (inject_Z (Z.of_nat (renders w)))
  else lookup_cell (written w) ix.

#[global] Instance engine : Wasm.Engine qsample state := {
  Wasm.create_granular_instance w := (w, 64%Z);
  Wasm.get_granular_waveform_ptr w _ _ := (w, waveform_ptr);
  Wasm.render_granular w _ _ := (mkEngine (S (renders w)) (written w), output_ptr);
  Wasm.free_granular_instance w _ := w;
  Wasm.mem_read := test_read;
  Wasm.mem_write w ix v := mkEngine (renders w) ((ix, v) :: written w)
}.

Definition runtime : Wasm.Runtime state :=
  Wasm.mkRuntime true (Some (mkEngine 0 [])).

Definition instance : Wasm.GranularInstance := Wasm.mkInstance (Some 64%Z).

(** A mono buffer of [n] samples, all equal to one. *)
Definition mono_buffer (n : nat) : Audio.AudioBuffer qsample :=
  Audio.mkAudioBuffer n 44100%Z [replicate n (Some 1%Q)].

(** The store after start-up and after loading [mono_buffer n]. *)
Definition loaded (n : nat) : Store.GranularState qsample :=
  Store.setAudioBuffer (Some (mono_buffer n))
    (Store.setGranularInstance (Some instance) Store.initialState).

End TestEngine.

(** ** Concrete inputs *)

(** A decoded file with three channels of one sample each. *)
Definition three_channels : Audio.AudioBuffer qsample :=
  Audio.mkAudioBuffer 1 44100%Z [[Some 1%Q]; [Some 1%Q]; [Some 4%Q]].

(** A stereo buffer of two samples. *)
Definition stereo_pair : Audio.AudioBuffer qsample :=
  Audio.mkAudioBuffer 2 44100%Z [[Some 1%Q; Some 2%Q]; [Some 3%Q; Some 6%Q]].

(** A constant input of 128 ones and a cleared output of 128 zeros. *)
Definition ones : list qsample := replicate 128 (Some 1%Q).
Definition zeros : list qsample := replicate 128 (Some 0%Q).

(** The store with a selection from [a] to [b]. *)
Definition selected (a b : Z) : Store.GranularState qsample :=
  Store.setSelectionEndSampleIx b (Store.setSelectionStartSampleIx a Store.initialState).

(** ** Loading the engine ([initWasm]) *)

Module WasmInit.

(** The module-level variables before any call. *)
Definition start {W : Type} : Wasm.Runtime W := Wasm.mkRuntime false None.

(** [initWasm], lines 19-32, is asynchronous and runs in two pieces: the
    guard [if (wasmInitialized) return], and, once [await init ()] has
    settled, the assignments to [wasmModule] and [wasmInitialized] (or the
    re-thrown error).  Other code, another call included, can run between
    the two.  [init] is what the loader of the compiled engine settles to:
    a module or a rejection. *)
Definition initWasm_guard {W : Type} (rt : Wasm.Runtime W) : bool :=
  Wasm.wasmInitialized rt.

Definition initWasm_settle {W : Type} (init : JS.result W) (rt : Wasm.Runtime W)
    : JS.result (Wasm.Runtime W) :=
  match init with
  | JS.Ok m => JS.Ok (Wasm.mkRuntime true (Some m))
  | JS.Throw error => JS.Throw error
  end.

(** A call awaited to its end, with nothing else running in between. *)
Definition initWasm {W : Type} (init : JS.result W) (rt : Wasm.Runtime W)
    : JS.result (Wasm.Runtime W) :=
  if initWasm_guard rt then JS.Ok rt
  else initWasm_settle init rt.

(** Several calls, each awaited before the next is made; a caller that
    sees a rejection keeps the variables as they were. *)
Definition initWasm_all {W : Type} (inits : list (JS.result W)) (rt : Wasm.Runtime W)
    : Wasm.Runtime W :=
  foldl (fun rt init => match initWasm init rt with
                        | JS.Ok rt' => rt'
                        | JS.Throw _ => rt
                        end) rt inits.

(** The first loader outcome that resolved. *)
Fixpoint first_resolved {W : Type} (inits : list (JS.result W)) : option W :=
  match inits with
  | [] => None
  | JS.Ok m :: _ => Some m
  | JS.Throw _ :: rest => first_resolved rest
  end.

(** Calls that overlap.  A schedule lists, in time order, the moments a
    call is made (its guard runs) and the moments the loader of a pending
    call settles (its second piece runs); [k] counts the pending calls from
    the oldest. *)
Inductive Step (W : Type) : Type :=
| Invoke (init : JS.result W)
| Settle (k : nat).
Arguments Invoke {W} init.
Arguments Settle {W} k.

Definition step {W : Type} (st : Wasm.Runtime W * list (JS.result W)) (a : Step W)
    : Wasm.Runtime W * list (JS.result W) :=
  let '(rt, pending) := st in
  match a with
  | Invoke init =>
      if initWasm_guard rt then (rt, pending) else (rt, pending ++ [init])
  | Settle k =>
      match pending !! k with
      | Some init =>
          (match initWasm_settle init rt with
           | JS.Ok rt' => rt'
           | JS.Throw _ => rt
           end, delete k pending)
      | None => (rt, pending)
      end
  end.

Definition run_schedule {W : Type} (steps : list (Step W))
    (st : Wasm.Runtime W * list (JS.result W)) : Wasm.Runtime W * list (JS.result W) :=
  foldl step st steps.

End WasmInit.

(** ** Resetting the store ([reset], lines 177-183 of the store) *)

Module StoreReset.

Definition reset {T W : Type} `{Wasm.Engine T W}
    (rt : Wasm.Runtime W) (state : Store.GranularState T)
    : JS.result (Wasm.Runtime W * Store.GranularState T) :=
  match Store.granularInstance state with
  | Some granularInstance =>
      '(rt', _) ← Wasm.free rt granularInstance;
      JS.Ok (rt', Store.initialState)
  | None => JS.Ok (rt, Store.initialState)
  end.

End StoreReset.

(** ** Reading the worklet parameters *)

Module WorkletParams.

(** [object[key]] on an object kept as a property list. *)
Fixpoint get (key : string) (object : list (string * Q)) : option Q :=
  match object with
  | [] => None
  | (k, v) :: rest => if String.eqb k key then Some v else get key rest
  end.

(** The value [Object.assign] takes from [source] for [key]: the last one
    listed, if any. *)
Definition assigned (key : string) (source : list (string * Q)) : option Q :=
  foldl (fun found kv => if String.eqb (fst kv) key then Some (snd kv) else found)
        None source.

End WorkletParams.

(** ** The bundled worklet ([frontend/public/granular-worklet.js]) *)

Module PublicWorklet.

Record GranularProcessor (W : Type) : Type := mkProcessor {
  grainSize : Q;
  density : Q;
  wasmModule : option W
}.
Arguments mkProcessor {W} _ _ _.
Arguments grainSize {W} _.
Arguments density {W} _.
Arguments wasmModule {W} _.

(** A message: [data.type] with the fields read for it; a field that is
    absent is [None]. *)
Inductive MessageData (W : Type) : Type :=
| UpdateParams (grainSize density : option Q)
| InitWasm (wasmModule : option W)
| OtherMessage.
Arguments UpdateParams {W} grainSize density.
Arguments InitWasm {W} wasmModule.
Arguments OtherMessage {W}.

(** The constructor, lines 5-20. *)
Definition initial {W : Type} : GranularProcessor W := mkProcessor 512 20 None.

(** [value || fallback] on numbers: [undefined] and 0 are falsy. *)
Definition or_else (value : option Q) (fallback : Q) : Q :=
  match value with
  | Some q => if Qeq_bool q 0 then fallback else q
  | None => fallback
  end.

(** [port.onmessage], lines 12-19. *)
Definition onmessage {W : Type} (this : GranularProcessor W) (data : MessageData W)
    : GranularProcessor W :=
  match data with
  | UpdateParams g d =>
      mkProcessor (or_else g (grainSize this)) (or_else d (density this)) (wasmModule this)
  | InitWasm m => mkProcessor (grainSize this) (density this) m
  | OtherMessage => this
  end.

(** [process], lines 22-43. *)
Definition process {T W : Type} `{SampleOps T} (this : GranularProcessor W)
    (inputs outputs : list (list (list T)))
    : GranularProcessor W * list (list (list T)) * bool :=
  match inputs !! 0, outputs !! 0 with
  | Some (inputChannel :: _), Some ((outputChannel :: _) as output) =>
      let outputChannel :=
        JS.for_loop 0 (length outputChannel)
          (fun i out => <[i := Worklet.or_zero inputChannel i]> out) outputChannel in
      (this, <[0 := <[0 := outputChannel]> output]> outputs, true)
  | _, _ => (this, outputs, true)
  end.

End PublicWorklet.

(** ** Back to an [AudioBuffer] ([float32ArrayToAudioBuffer]) *)

Module AudioOut.

(** [audioContext.createBuffer]: a silent buffer.  The platform rejects a
    channel count or a length of zero and a sample rate outside the range
    it supports; which rates those are is the platform's, [supported]. *)
Definition createBuffer {T : Type} `{SampleOps T} (supported : Z -> bool)
    (numberOfChannels length : nat) (sampleRate : Z) : JS.result (Audio.AudioBuffer T) :=
  if (numberOfChannels =? 0) || (length =? 0) || negb (supported sampleRate)
  then JS.Throw "NotSupportedError"
  else JS.Ok (Audio.mkAudioBuffer length sampleRate
                (replicate numberOfChannels (replicate length s_zero))).

(** [buffer.copyToChannel (source, channelNumber)]: the channel is
    overwritten from its start with as much of [source] as fits. *)
Definition copyToChannel {T : Type} (buffer : Audio.AudioBuffer T)
    (source : list T) (channelNumber : nat) : JS.result (Audio.AudioBuffer T) :=
  match Audio.ab_channels buffer !! channelNumber with
  | Some channel =>
      JS.Ok (Audio.mkAudioBuffer (Audio.ab_length buffer) (Audio.ab_sampleRate buffer)
               (<[channelNumber := take (length channel) source
                                   ++ drop (length source) channel]>
                  (Audio.ab_channels buffer)))
  | None => JS.Throw "IndexSizeError"
  end.

(** [float32ArrayToAudioBuffer], lines 35-46 of [audio.ts]; [sampleRate]
    defaults to 44100. *)
Definition float32ArrayToAudioBuffer {T : Type} `{SampleOps T} (supported : Z -> bool)
    (data : list T) (sampleRate : option Z) : JS.result (Audio.AudioBuffer T) :=
  let sampleRate := default 44100%Z sampleRate in
  buffer ← createBuffer supported 1 (length data) sampleRate;
  let channelData := data in
  copyToChannel buffer channelData 0.

End AudioOut.

(** ** Loading a file ([handleFileSelect]) and what the page shows ([App]) *)

Module Page.

Section WithEngine.
Context {T W : Type} `{SampleOps T} `{Wasm.Engine T W}.

(** Lines 117-122 of [handleFileSelect]: without an audio context in the
    store, a new one ([newContext]) is created and stored. *)
Definition with_audio_context (newContext : nat) (s : Store.GranularState T)
    : Store.GranularState T :=
  match Store.audioContext s with
  | Some _ => s
  | None => Store.setAudioContext (Some newContext) s
  end.

(** [handleFileSelect], lines 109-162.  [file] is [None] when no file was
    selected, otherwise the outcome of [loadAudioFile] for it.  Anything
    thrown inside the [try] block is caught and shown in an alert, whose
    message is the third component.  The instance is the one of the render
    the handler was created in. *)
Definition handleFileSelect (newContext : nat)
    (file : option (JS.result (Audio.AudioBuffer T)))
    (rt : Wasm.Runtime W) (s : Store.GranularState T)
    : Wasm.Runtime W * Store.GranularState T * option string :=
  match file with
  | None => (rt, s, None)
  | Some decoded =>
      let s0 := with_audio_context newContext s in
      match decoded with
      | JS.Throw message => (rt, s0, Some message)
      | JS.Ok buffer =>
          let s1 := Store.setAudioBuffer (Some buffer) s0 in
          match Store.granularInstance s with
          | Some granularInstance =>
              if Wasm.isWasmInitialized rt then
                match (inputData ← Audio.audioBufferToFloat32Array buffer;
                       Wasm.setWaveform rt granularInstance inputData) with
                | JS.Ok rt' => (rt', s1, None)
                | JS.Throw message => (rt, s1, Some message)
                end
              else (rt, s1, None)
          | None => (rt, s1, None)
          end
      end
  end.

End WithEngine.

(** The [data] of the [Waveform] component for its [buffer] property:
    channel 0 of an [AudioBuffer], or the array itself. *)
Definition waveform_data {T : Type}
    (buffer : Audio.AudioBuffer T + list T) : JS.result (list T) :=
  match buffer with
  | inl audioBuffer => Audio.getChannelData audioBuffer 0
  | inr array => JS.Ok array
  end.

(** [App]: the processed buffer is shown when there is one, otherwise the
    loaded audio buffer, otherwise nothing. *)
Definition shown_buffer {T : Type} (s : Store.GranularState T)
    : option (Audio.AudioBuffer T + list T) :=
  match Store.processedBuffer s, Store.audioBuffer s with
  | Some processedBuffer, _ => Some (inr processedBuffer)
  | None, Some audioBuffer => Some (inl audioBuffer)
  | None, None => None
  end.

End Page.

(** ** The column ranges of the PixiJS waveform ([draw]) *)

Module PixiWaveform.

Definition width : nat := 800.

(** [Math.max (1, Math.floor (data.length / width))]. *)
Definition samplesPerPixel (len : nat) : nat := Nat.max 1 (len / width).

(** The samples summed for column [x]: from [start] up to, not including,
    [end]. *)
Definition segment (len x : nat) : nat * nat :=
  let start := x * samplesPerPixel len in
  let end_ := Nat.min (start + samplesPerPixel len) len in
  (start, end_).

End PixiWaveform.

(** ** An engine that is only a memory *)

Module ArrayEngine.

(** The cells written so far, newest first; a cell never written reads as
    NaN. *)
Record state : Type := mkArray {
  cells : list (Z * qsample)
}.

Fixpoint cell_at (cells : list (Z * qsample)) (ix : Z) : qsample :=
  match cells with
  | [] => None
  | (k, v) :: rest => if Z.eqb k ix then v else cell_at rest ix
  end.

Definition engine : Wasm.Engine qsample state := {|
  Wasm.create_granular_instance w := (w, 64%Z);
  Wasm.get_granular_waveform_ptr w _ _ := (w, 4096%Z);
  Wasm.render_granular w _ _ := (w, 4096%Z);
  Wasm.free_granular_instance w _ := w;
  Wasm.mem_read w ix := cell_at (cells w) ix;
  Wasm.mem_write w ix v := mkArray ((ix, v) :: cells w)
|}.

End ArrayEngine.

(** * Properties *)

(** ** Loops that fill an array cell by cell *)

Section FillLoop.
Context {A : Type}.

Lemma for_loop_nil {S : Type} lo (body : nat -> S -> S) (s : S) :
  JS.for_loop lo lo body s = s.
Proof. unfold JS.for_loop. by rewrite Nat.sub_diag. Qed.

Lemma for_loop_empty {S : Type} lo hi (body : nat -> S -> S) (s : S) :
  hi <= lo -> JS.for_loop lo hi body s = s.
Proof. intros Hle. unfold JS.for_loop. by replace (hi - lo) with 0 by lia. Qed.

Lemma for_loop_snoc {S : Type} lo hi (body : nat -> S -> S) (s : S) :
  lo <= hi ->
  JS.for_loop lo (Datatypes.S hi) body s = body hi (JS.for_loop lo hi body s).
Proof.
  intros Hle. unfold JS.for_loop.
  replace (Datatypes.S hi - lo) with (Datatypes.S (hi - lo)) by lia.
  rewrite seq_S, foldl_app. simpl.
  by replace (lo + (hi - lo)) with hi by lia.
Qed.

(** [for i in lo..hi: a[i] = f i] keeps the length of [a]. *)
Lemma length_fill (f : nat -> A) lo hi (a : list A) :
  length (JS.for_loop lo hi (fun i acc => <[i:=f i]> acc) a) = length a.
Proof.
  destruct (Nat.le_gt_cases lo hi) as [Hle|Hgt].
  - induction Hle as [|hi Hle IH].
    + by rewrite for_loop_nil.
    + rewrite for_loop_snoc by done. by rewrite length_insert.
  - rewrite for_loop_empty by lia. done.
Qed.

(** Cells inside the loop range (and inside the array) hold [f i]. *)
Lemma lookup_fill_in (f : nat -> A) lo hi (a : list A) i :
  lo <= i < hi -> i < length a ->
  JS.for_loop lo hi (fun i acc => <[i:=f i]> acc) a !! i = Some (f i).
Proof.
  intros [Hlo Hhi] Hlen.
  assert (Hle : lo <= hi) by lia.
  induction Hle as [|hi Hle IH].
  - lia.
  - rewrite for_loop_snoc by done.
    destruct (decide (i = hi)) as [->|Hne].
    + apply list_lookup_insert_eq. by rewrite length_fill.
    + rewrite list_lookup_insert_ne by done. apply IH. lia.
Qed.

(** Cells outside the loop range are untouched. *)
Lemma lookup_fill_out (f : nat -> A) lo hi (a : list A) i :
  ~ (lo <= i < hi) ->
  JS.for_loop lo hi (fun i acc => <[i:=f i]> acc) a !! i = a !! i.
Proof.
  intros Hout.
  destruct (Nat.le_gt_cases lo hi) as [Hle|Hgt].
  - induction Hle as [|hi Hle IH].
    + by rewrite for_loop_nil.
    + rewrite for_loop_snoc by done.
      rewrite list_lookup_insert_ne by lia. apply IH. lia.
  - rewrite for_loop_empty by lia. done.
Qed.

(** Filling the whole array gives the table of [f]. *)
Lemma fill_all (f : nat -> A) (a : list A) :
  JS.for_loop 0 (length a) (fun i acc => <[i:=f i]> acc) a = map f (seq 0 (length a)).
Proof.
  apply list_eq. intros i.
  destruct (decide (i < length a)) as [Hlt|Hge].
  - rewrite lookup_fill_in by lia.
    change (map f (seq 0 (length a))) with (f <$> seq 0 (length a)).
    rewrite list_lookup_fmap, lookup_seq_lt by done. done.
  - rewrite !lookup_ge_None_2; [done| |].
    + rewrite length_map, length_seq. lia.
    + rewrite length_fill. lia.
Qed.

End FillLoop.

(** ** Down-mix *)

Section AudioFacts.
Context {T : Type} `{SampleOps T}.

Lemma downmix_two_or_more (b : Audio.AudioBuffer T) (left right : list T) rest :
  Audio.ab_channels b = left :: right :: rest ->
  Audio.audioBufferToFloat32Array b
  = JS.Ok (map (fun i => s_div (s_add (read left i) (read right i)) 2)
               (seq 0 (length left))).
Proof.
  intros Hch. unfold Audio.audioBufferToFloat32Array, Audio.numberOfChannels,
    Audio.getChannelData.
  rewrite Hch. simpl.
  f_equal.
  rewrite <- (length_replicate (length left) s_zero) at 1.
  rewrite fill_all. by rewrite length_replicate.
Qed.

End AudioFacts.

(** C8, as stated, fails: with three channels the result is the mean of the
    first two channels (here 1), not the mean of all three (here 2). *)
Lemma downmix_three_channels_not_average :
  Audio.wf three_channels
  /\ Audio.audioBufferToFloat32Array three_channels = JS.Ok [Some (2 # 2)%Q]
  /\ Audio.channel_average (Audio.ab_channels three_channels) 0 = Some (6 # 3)%Q
  /\ ~ (2 # 2 == 6 # 3)%Q.
Proof.
  split; [|split; [|split]].
  - split; [done|]. repeat constructor.
  - reflexivity.
  - reflexivity.
  - intros Heq. vm_compute in Heq. discriminate.
Qed.

(** C8 (amended): a mono buffer is passed through unchanged; with two or
    more channels, sample [i] of the result is the mean of sample [i] of the
    first two channels, which is the mean over all channels exactly when
    there are two. *)
Theorem downmix_spec {T : Type} `{SampleOps T} (b : Audio.AudioBuffer T) :
  Audio.wf b ->
  exists mono,
    Audio.audioBufferToFloat32Array b = JS.Ok mono
    /\ length mono = Audio.ab_length b
    /\ (Audio.numberOfChannels b = 1 -> Audio.ab_channels b = [mono])
    /\ (forall left right rest i,
          Audio.ab_channels b = left :: right :: rest -> i < Audio.ab_length b ->
          mono !! i = Some (s_div (s_add (read left i) (read right i)) 2))
    /\ (Audio.numberOfChannels b = 2 ->
        forall i, i < Audio.ab_length b ->
          mono !! i = Some (Audio.channel_average (Audio.ab_channels b) i)).
Proof.
  intros [Hne Hlen].
  destruct b as [len rate chans]; simpl in *.
  destruct chans as [|left [|right rest]]; [done| |].
  - exists left. unfold Audio.audioBufferToFloat32Array, Audio.numberOfChannels,
      Audio.getChannelData; simpl.
    apply Forall_cons in Hlen as [Hl _].
    repeat split; done.
  - apply Forall_cons in Hlen as [Hl Hrest].
    eexists. split.
    + by apply (downmix_two_or_more _ left right rest).
    + assert (Hget : forall i, i < len ->
        map (fun i => s_div (s_add (read left i) (read right i)) 2)
            (seq 0 (length left)) !! i
        = Some (s_div (s_add (read left i) (read right i)) 2)).
      { intros i Hi.
        change (map ?f ?l) with (f <$> l).
        rewrite list_lookup_fmap, lookup_seq_lt by lia. done. }
      repeat split.
      * rewrite length_map, length_seq. done.
      * unfold Audio.numberOfChannels. simpl. lia.
      * intros l r rs i Hch Hi. inversion Hch; subst. by apply Hget.
      * unfold Audio.numberOfChannels. simpl. intros Hn i Hi.
        destruct rest; [|simpl in Hn; lia].
        simpl. by apply Hget.
Qed.

Lemma downmix_spec_witness :
  Audio.wf stereo_pair
  /\ exists mono,
    Audio.audioBufferToFloat32Array stereo_pair = JS.Ok mono
    /\ length mono = Audio.ab_length stereo_pair
    /\ (Audio.numberOfChannels stereo_pair = 1 -> Audio.ab_channels stereo_pair = [mono])
    /\ (forall left right rest i,
          Audio.ab_channels stereo_pair = left :: right :: rest ->
          i < Audio.ab_length stereo_pair ->
          mono !! i = Some (s_div (s_add (read left i) (read right i)) 2))
    /\ (Audio.numberOfChannels stereo_pair = 2 ->
        forall i, i < Audio.ab_length stereo_pair ->
          mono !! i = Some (Audio.channel_average (Audio.ab_channels stereo_pair) i)).
Proof.
  assert (Hwf : Audio.wf stereo_pair).
  { split; [done|]. repeat constructor. }
  split; [exact Hwf|].
  exact (downmix_spec stereo_pair Hwf).
Defined.

(** ** The store *)

(** C9: loading a (non-null) buffer of length [len] resets the selection to
    the full range: start 0, end [len]. *)
Theorem setAudioBuffer_resets_selection {T : Type}
    (buffer : Audio.AudioBuffer T) (s : Store.GranularState T) :
  let s' := Store.setAudioBuffer (Some buffer) s in
  Store.audioBuffer s' = Some buffer
  /\ Store.selectionStartSampleIx s' = 0%Z
  /\ Store.selectionEndSampleIx s' = Z.of_nat (Audio.ab_length buffer).
Proof. by destruct s. Qed.

Lemma setters_keep_engine_fields {T : Type} (s : Store.GranularState T)
    (d : Q) (playing : bool) (ctx source worklet : option nat) :
  Store.same_engine_fields s
    (Store.setWorkletNode worklet
       (Store.setSourceNode source
          (Store.setAudioContext ctx
             (Store.setIsPlaying playing (Store.setDensity d s))))).
Proof. destruct s. unfold Store.same_engine_fields. simpl. tauto. Qed.

(** C10, as stated, fails on the count: the snapshot carries seventeen
    values, not eighteen. *)
Lemma snapshot_has_not_eighteen_fields :
  length (Wasm.render_args (Store.getGranularParams (@Store.initialState qsample))) <> 18.
Proof. vm_compute. discriminate. Qed.

(** C10 (amended): the snapshot holds exactly the seventeen engine
    parameters, and two states that agree on them (whatever their [density],
    playback flag, handles and buffers) give the same snapshot. *)
Theorem snapshot_ignores_density {T : Type} (s1 s2 : Store.GranularState T) :
  Store.same_engine_fields s1 s2 ->
  Store.getGranularParams s1 = Store.getGranularParams s2
  /\ length (Wasm.render_args (Store.getGranularParams s1)) = 17.
Proof.
  unfold Store.same_engine_fields, Store.getGranularParams.
  intros (-> & -> & -> & -> & -> & -> & -> & -> & -> & -> & -> & -> & -> & -> & -> & -> & ->).
  split; reflexivity.
Qed.

Lemma snapshot_ignores_density_witness :
  let s1 := @Store.initialState qsample in
  let s2 := Store.setWorkletNode (Some 3)
              (Store.setSourceNode (Some 2)
                 (Store.setAudioContext (Some 1)
                    (Store.setIsPlaying true (Store.setDensity 55 s1)))) in
  Store.same_engine_fields s1 s2
  /\ Store.getGranularParams s1 = Store.getGranularParams s2
  /\ length (Wasm.render_args (Store.getGranularParams s1)) = 17.
Proof.
  intros s1 s2.
  assert (Hsame : Store.same_engine_fields s1 s2).
  { unfold Store.same_engine_fields. simpl. tauto. }
  split; [exact Hsame|].
  exact (snapshot_ignores_density s1 s2 Hsame).
Defined.

(** ** The engine wrapper *)

Section WasmFacts.
Context {T W : Type} `{SampleOps T} `{Wasm.Engine T W}.

Lemma engine_render_length p params (w : W) :
  length (snd (Wasm.engine_render p params w)) = 128.
Proof.
  unfold Wasm.engine_render.
  destruct (Wasm.render_granular w p (Wasm.render_args params)) as [w1 ptr].
  cbn [snd]. by rewrite length_map, length_seq.
Qed.

(** On a live instance [renderFrame] is one engine render. *)
Lemma renderFrame_live init (w : W) p params :
  Wasm.renderFrame (Wasm.mkRuntime init (Some w)) (Wasm.mkInstance (Some p)) params
  = JS.Ok (Wasm.mkRuntime init (Some (fst (Wasm.engine_render p params w))),
           snd (Wasm.engine_render p params w)).
Proof.
  unfold Wasm.renderFrame, Wasm.engine_render.
  cbn [Wasm.instancePtr Wasm.wasmModule Wasm.wasmInitialized].
  destruct (Wasm.render_granular w p (Wasm.render_args params)) as [w1 ptr].
  cbn [fst snd].
  pose proof (fill_all (fun i => Wasm.mem_read w1 (ptr / 4 + Z.of_nat i)%Z)
                       (replicate 128 s_zero)) as Hfill.
  rewrite length_replicate in Hfill. by rewrite Hfill.
Qed.

Lemma render_sequence_lengths n p params (w : W) :
  length (snd (Wasm.render_sequence n p params w)) = n
  /\ Forall (fun frame => length frame = 128) (snd (Wasm.render_sequence n p params w))
  /\ length (concat (snd (Wasm.render_sequence n p params w))) = n * 128.
Proof.
  revert w. induction n as [|n IH]; intros w; simpl.
  - by repeat split.
  - pose proof (engine_render_length p params w) as Hlen.
    destruct (Wasm.engine_render p params w) as [w1 frame].
    specialize (IH w1).
    destruct (Wasm.render_sequence n p params w1) as [w2 frames].
    simpl in *. destruct IH as (IH1 & IH2 & IH3).
    repeat split.
    + by rewrite IH1.
    + by constructor.
    + rewrite length_app, IH3, Hlen. lia.
Qed.

(** The engine after [n] renders is the [n]-fold iterate of one render. *)
Lemma render_sequence_state n p params (w : W) :
  fst (Wasm.render_sequence n p params w)
  = Nat.iter n (fun w => fst (Wasm.render_granular w p (Wasm.render_args params))) w.
Proof.
  revert w. induction n as [|n IH]; intros w; [done|].
  rewrite Nat.iter_succ_r. rewrite <- IH. simpl.
  unfold Wasm.engine_render.
  destruct (Wasm.render_granular w p (Wasm.render_args params)) as [w1 ptr].
  simpl.
  by destruct (Wasm.render_sequence n p params w1).
Qed.

(** C5 (amended): once [free] has run on an instance, [setWaveform] and
    [renderFrame] on it throw "Granular instance has been freed", whatever
    the runtime and the arguments; a further [free] returns normally and
    changes nothing. *)
Theorem freed_instance_operations (rt rt' : Wasm.Runtime W)
    (this this' : Wasm.GranularInstance) :
  Wasm.free rt this = JS.Ok (rt', this') ->
  Wasm.instancePtr this' = None
  /\ (forall rt2 waveform,
        Wasm.setWaveform rt2 this' waveform = JS.Throw Wasm.freed_message)
  /\ (forall rt2 params,
        Wasm.renderFrame rt2 this' params = JS.Throw Wasm.freed_message)
  /\ (forall rt2, Wasm.free rt2 this' = JS.Ok (rt2, this')).
Proof.
  unfold Wasm.free. intros Hfree.
  assert (Hnull : Wasm.instancePtr this' = None).
  { destruct (Wasm.instancePtr this) as [p|] eqn:Hp.
    - destruct (Wasm.wasmModule rt); [|discriminate].
      by inversion Hfree.
    - inversion Hfree; by subst. }
  split; [exact Hnull|].
  unfold Wasm.setWaveform, Wasm.renderFrame, Wasm.free.
  rewrite Hnull. by repeat split.
Qed.

End WasmFacts.

(** C5, as stated, fails for [free] itself: a second [free] on the freed
    handle returns normally, with the runtime and the handle unchanged. *)
Lemma free_twice_is_silent :
  exists rt' this',
    Wasm.free TestEngine.runtime TestEngine.instance = JS.Ok (rt', this')
    /\ Wasm.instancePtr this' = None
    /\ Wasm.free rt' this' = JS.Ok (rt', this')
    /\ JS.is_ok (Wasm.free rt' this') = true.
Proof. do 2 eexists. repeat split. Qed.

Lemma freed_instance_operations_witness :
  let rt' := Wasm.mkRuntime true (Some (TestEngine.mkEngine 0 [])) in
  let this' := Wasm.mkInstance None in
  Wasm.free TestEngine.runtime TestEngine.instance = JS.Ok (rt', this')
  /\ Wasm.instancePtr this' = None
  /\ (forall rt2 waveform,
        Wasm.setWaveform rt2 this' waveform = JS.Throw Wasm.freed_message)
  /\ (forall rt2 params,
        Wasm.renderFrame rt2 this' params = JS.Throw Wasm.freed_message)
  /\ (forall rt2, Wasm.free rt2 this' = JS.Ok (rt2, this')).
Proof.
  intros rt' this'.
  assert (Hfree : Wasm.free TestEngine.runtime TestEngine.instance = JS.Ok (rt', this'))
    by reflexivity.
  split; [exact Hfree|].
  exact (freed_instance_operations TestEngine.runtime rt' TestEngine.instance this' Hfree).
Defined.

(** ** The offline renderer *)

Lemma ceil_div_128 (n : nat) :
  JS.ceil_div n 128 = (n + 127) / 128
  /\ n <= JS.ceil_div n 128 * 128 < n + 128.
Proof.
  unfold JS.ceil_div.
  pose proof (Nat.div_mod_eq n 128) as Hn.
  pose proof (Nat.mod_upper_bound n 128) as Hr.
  destruct (Nat.eqb_spec (n mod 128) 0) as [Hz|Hnz].
  - split; [|lia].
    apply (Nat.div_unique _ _ _ 127); lia.
  - split; [|lia].
    apply (Nat.div_unique _ _ _ (n mod 128 - 1)); lia.
Qed.

Lemma typed_set_fits {A : Type} (target source : list A) offset :
  offset + length source <= length target ->
  JS.typed_set target source offset
  = JS.Ok (take offset target ++ source ++ drop (offset + length source) target).
Proof.
  intros Hfit. unfold JS.typed_set.
  by destruct (Nat.leb_spec (offset + length source) (length target)); [|lia].
Qed.

Section ControlFacts.
Context {T W : Type} `{SampleOps T} `{Wasm.Engine T W}.

(** The render loop, started at frame [lo] with [k] turns to go, replaces
    cells [lo * 128 .. (lo + k) * 128) of the output by the next [k] engine
    frames, in call order. *)
Lemma render_loop p params k :
  forall lo init (w : W) (buf : list T),
    (lo + k) * 128 <= length buf ->
    JS.for_loop_r k lo (Control.render_into (Wasm.mkInstance (Some p)) params)
                  (Wasm.mkRuntime init (Some w), buf)
    = JS.Ok (Wasm.mkRuntime init (Some (fst (Wasm.render_sequence k p params w))),
             take (lo * 128) buf
             ++ concat (snd (Wasm.render_sequence k p params w))
             ++ drop ((lo + k) * 128) buf).
Proof.
  induction k as [|k IH]; intros lo init w buf Hlen.
  - simpl. rewrite Nat.add_0_r. by rewrite take_drop.
  - cbn [JS.for_loop_r]. unfold Control.render_into at 1. cbn [fst snd].
    rewrite renderFrame_live.
    pose proof (engine_render_length p params w) as Hframe.
    cbn [Wasm.render_sequence].
    destruct (Wasm.engine_render p params w) as [w1 frame].
    cbn [fst snd] in *.
    unfold mbind, result_bind. cbn [JS.bind].
    rewrite typed_set_fits by lia. cbn [JS.bind].
    rewrite IH by (rewrite !length_app, length_take, length_drop; lia).
    destruct (Wasm.render_sequence k p params w1) as [w2 frames].
    cbn [fst snd concat]. do 2 f_equal.
    assert (Htake : length (take (lo * 128) buf) = lo * 128)
      by (rewrite length_take; lia).
    rewrite Hframe.
    rewrite (app_assoc (take (lo * 128) buf) frame).
    replace (Datatypes.S lo * 128) with (length (take (lo * 128) buf ++ frame))
      by (rewrite length_app; lia).
    rewrite take_app_length.
    rewrite <- !app_assoc. do 3 f_equal.
    rewrite (app_assoc (take (lo * 128) buf) frame).
    rewrite drop_app_ge by (rewrite length_app; lia).
    rewrite drop_drop. f_equal. rewrite length_app. lia.
Qed.

(** C1: with a live engine instance and a loaded buffer whose mono data has
    [N] samples, [processOffline] renders [ceil (N / 128)] frames one after
    the other (the engine ends in the state reached by exactly that many
    renders), lays them out back to back in a buffer of [numFrames * 128]
    cells, and publishes the first [N] cells: the processed buffer has
    exactly [N] samples. *)
Theorem processOffline_renders_whole_buffer
    (rt : Wasm.Runtime W) (s : Store.GranularState T)
    (p : Z) (w : W) (audioBuffer : Audio.AudioBuffer T) (inputData : list T) :
  Store.granularInstance s = Some (Wasm.mkInstance (Some p)) ->
  Store.audioBuffer s = Some audioBuffer ->
  Wasm.wasmInitialized rt = true ->
  Wasm.wasmModule rt = Some w ->
  Audio.audioBufferToFloat32Array audioBuffer = JS.Ok inputData ->
  let N := length inputData in
  let numFrames := JS.ceil_div N 128 in
  let params := Store.getGranularParams s in
  let frames := snd (Wasm.render_sequence numFrames p params w) in
  let trimmed := take N (concat frames) in
  numFrames = (N + 127) / 128
  /\ length frames = numFrames
  /\ Forall (fun frame => length frame = 128) frames
  /\ length (concat frames) = numFrames * 128
  /\ length trimmed = N
  /\ Control.processOffline rt s
     = JS.Ok (Wasm.mkRuntime true
                (Some (Nat.iter numFrames
                         (fun w => fst (Wasm.render_granular w p (Wasm.render_args params)))
                         w)),
              Store.setProcessedBuffer (Some trimmed) s)
  /\ (forall rt' s', Control.processOffline rt s = JS.Ok (rt', s') ->
        option_map length (Store.processedBuffer s') = Some N).
Proof.
  intros Hinst Hbuf Hinit Hmod Hmono N numFrames params frames trimmed.
  destruct (ceil_div_128 N) as [Hceil Hbounds].
  destruct (render_sequence_lengths numFrames p params w) as (Hn & Hall & Hcat).
  fold frames in Hn, Hall, Hcat.
  assert (Htrim : length trimmed = N).
  { unfold trimmed. rewrite length_take, Hcat. fold numFrames in Hbounds. lia. }
  assert (Hrun : Control.processOffline rt s
     = JS.Ok (Wasm.mkRuntime true
                (Some (Nat.iter numFrames
                         (fun w => fst (Wasm.render_granular w p (Wasm.render_args params)))
                         w)),
              Store.setProcessedBuffer (Some trimmed) s)).
  { unfold Control.processOffline.
    rewrite Hinst, Hbuf. unfold Wasm.isWasmInitialized. rewrite Hinit. cbn [negb].
    rewrite Hmono. unfold mbind at 1, result_bind at 1. cbn [JS.bind].
    destruct rt as [init m]. simpl in Hinit, Hmod. subst init m.
    fold N. fold numFrames. fold params.
    rewrite (render_loop p params numFrames 0 true w)
      by (rewrite length_replicate; lia).
    unfold mbind, result_bind. cbn [JS.bind].
    rewrite <- render_sequence_state.
    do 3 f_equal. unfold JS.slice0.
    rewrite Nat.mul_0_l, take_0, app_nil_l.
    rewrite drop_ge by (rewrite length_replicate; lia).
    by rewrite app_nil_r. }
  repeat split; try done.
  intros rt' s' Hok. rewrite Hrun in Hok. inversion Hok; subst.
  destruct s. cbn [Store.setProcessedBuffer Store.processedBuffer option_map].
  by rewrite Htrim.
Qed.

End ControlFacts.

(** The scenario of C1 on the in-memory engine: 1000 samples, 8 frames,
    1000 samples published. *)
Lemma processOffline_renders_whole_buffer_witness :
  let s := TestEngine.loaded 1000 in
  let inputData := replicate 1000 (Some 1%Q) in
  let params := Store.getGranularParams s in
  let frames := snd (Wasm.render_sequence 8 64%Z params (TestEngine.mkEngine 0 [])) in
  JS.ceil_div 1000 128 = 8
  /\ 8 = (length inputData + 127) / 128
  /\ length frames = 8
  /\ length (concat frames) = 8 * 128
  /\ length (take (length inputData) (concat frames)) = length inputData
  /\ forall rt' s', Control.processOffline TestEngine.runtime s = JS.Ok (rt', s') ->
       option_map length (Store.processedBuffer s') = Some 1000.
Proof.
  intros s inputData params frames.
  pose proof (processOffline_renders_whole_buffer
                TestEngine.runtime s 64%Z (TestEngine.mkEngine 0 [])
                (TestEngine.mono_buffer 1000) inputData
                eq_refl eq_refl eq_refl eq_refl eq_refl)
    as (Hceil & Hn & _ & Hcat & Htrim & _ & Hlen).
  assert (Hlength : length inputData = 1000) by (unfold inputData; apply length_replicate).
  assert (Height : JS.ceil_div 1000 128 = 8) by reflexivity.
  rewrite Hlength in *. rewrite Height in *.
  repeat split; try assumption.
Defined.

(** ** The audio worklet *)

Section WorkletFacts.
Context {T : Type} `{SampleOps T}.

(** The copy loop followed by the zero-fill loop writes the queued frame,
    cut or padded to the length of the output channel. *)
Lemma copy_then_zero_fill (outputChannel processedFrame : list T) :
  let frameLength := length outputChannel in
  let copyLength := Nat.min frameLength (length processedFrame) in
  JS.for_loop copyLength frameLength (fun i out => <[i := s_zero]> out)
    (JS.for_loop 0 copyLength (fun i out => <[i := read processedFrame i]> out)
       outputChannel)
  = Worklet.fit frameLength processedFrame.
Proof.
  intros frameLength copyLength. apply list_eq. intros i. unfold Worklet.fit.
  assert (Htake : length (take frameLength processedFrame) = copyLength)
    by apply length_take.
  destruct (decide (i < copyLength)) as [Hcopy|Hcopy].
  - rewrite (lookup_fill_out (fun _ => s_zero)) by lia.
    rewrite (lookup_fill_in (fun i => read processedFrame i)) by (unfold frameLength in *; lia).
    rewrite lookup_app_l by lia. rewrite lookup_take_lt by lia.
    unfold read.
    destruct (lookup_lt_is_Some_2 processedFrame i) as [x Hx]; [lia|].
    by rewrite Hx.
  - destruct (decide (i < frameLength)) as [Hin|Hout].
    + rewrite (lookup_fill_in (fun _ => s_zero)) by (rewrite ?length_fill; lia).
      rewrite lookup_app_r by lia.
      rewrite lookup_replicate_2 by lia. done.
    + rewrite (lookup_fill_out (fun _ => s_zero)) by lia.
      rewrite (lookup_fill_out (fun i => read processedFrame i)) by lia.
      rewrite !lookup_ge_None_2; [done| |].
      * rewrite length_app, length_replicate. lia.
      * unfold frameLength in *. lia.
Qed.

Lemma length_fit frameLength (frame : list T) :
  length (Worklet.fit frameLength frame) = frameLength.
Proof.
  unfold Worklet.fit. rewrite length_app, length_take, length_replicate. lia.
Qed.

(** What one callback does when the host hands over an input and an output
    with at least one channel each. *)
Lemma process_frame_active (this : Worklet.GranularProcessor T)
    inputs outputs inputChannel input_rest outputChannel output_rest :
  inputs !! 0 = Some (inputChannel :: input_rest) ->
  outputs !! 0 = Some (outputChannel :: output_rest) ->
  Worklet.process_frame this inputs outputs
  = match Worklet.outputBuffer this with
    | processedFrame :: rest =>
        (Worklet.mkProcessor rest (Worklet.params this),
         <[0 := Worklet.fit (length outputChannel) processedFrame :: output_rest]> outputs,
         Some processedFrame)
    | [] =>
        (this,
         <[0 := map (Worklet.or_zero inputChannel) (seq 0 (length outputChannel))
                :: output_rest]> outputs,
         None)
    end.
Proof.
  intros Hin Hout. unfold Worklet.process_frame. rewrite Hin, Hout.
  destruct (Worklet.outputBuffer this) as [|processedFrame rest].
  - by rewrite fill_all.
  - by rewrite copy_then_zero_fill.
Qed.

(** A callback takes at most the head of the queue, and what it takes is
    what it writes to the output. *)
Lemma process_frame_shifts_head (this : Worklet.GranularProcessor T) inputs outputs :
  match Worklet.process_frame this inputs outputs with
  | (this', outputs', None) => Worklet.outputBuffer this' = Worklet.outputBuffer this
  | (this', outputs', Some frame) =>
      Worklet.outputBuffer this = frame :: Worklet.outputBuffer this'
      /\ exists outputChannel,
           Worklet.first_channel outputs = Some outputChannel
           /\ Worklet.first_channel outputs'
              = Some (Worklet.fit (length outputChannel) frame)
  end.
Proof.
  destruct (inputs !! 0) as [[|inputChannel input_rest]|] eqn:Hin;
    [unfold Worklet.process_frame; by rewrite Hin | |
     unfold Worklet.process_frame; by rewrite Hin].
  destruct (outputs !! 0) as [[|outputChannel output_rest]|] eqn:Hout;
    [unfold Worklet.process_frame; by rewrite Hin, Hout | |
     unfold Worklet.process_frame; by rewrite Hin, Hout].
  rewrite (process_frame_active this _ _ _ _ _ _ Hin Hout).
  destruct (Worklet.outputBuffer this) as [|frame rest] eqn:Hq; [done|].
  split; [done|]. exists outputChannel.
  unfold Worklet.first_channel. rewrite Hout.
  rewrite list_lookup_insert_eq by (by apply lookup_lt_Some in Hout).
  done.
Qed.

(** Callbacks that all have an input and an output channel, no more of
    them than frames queued, deliver the frames from the front of the
    queue, one each and in order. *)
Lemma callbacks_drain_queue
    (cbs : list (list (list (list T)) * list (list (list T))))
    (this : Worklet.GranularProcessor T) :
  Forall (fun io => exists inputChannel input_rest outputChannel output_rest,
                      fst io !! 0 = Some (inputChannel :: input_rest)
                      /\ snd io !! 0 = Some (outputChannel :: output_rest)) cbs ->
  length cbs <= length (Worklet.outputBuffer this) ->
  snd (Worklet.run (map (fun io => Worklet.Callback (fst io) (snd io)) cbs) this)
  = take (length cbs) (Worklet.outputBuffer this)
  /\ Worklet.outputBuffer
       (fst (Worklet.run (map (fun io => Worklet.Callback (fst io) (snd io)) cbs) this))
     = drop (length cbs) (Worklet.outputBuffer this).
Proof.
  intros Hall. revert this.
  induction Hall as [|[inputs outputs] cbs Hactive Hall IH]; intros this Hlen.
  - by rewrite drop_0.
  - destruct Hactive as (inputChannel & input_rest & outputChannel & output_rest & Hin & Hout).
    cbn [fst snd] in Hin, Hout. cbn [map Worklet.run fst snd].
    rewrite (process_frame_active this _ _ _ _ _ _ Hin Hout).
    destruct (Worklet.outputBuffer this) as [|frame rest] eqn:Hq;
      [cbn [length] in Hlen; lia|].
    specialize (IH (Worklet.mkProcessor rest (Worklet.params this))).
    cbn [Worklet.outputBuffer length] in IH, Hlen.
    destruct IH as [IHd IHq]; [lia|].
    destruct (Worklet.run _ (Worklet.mkProcessor rest (Worklet.params this)))
      as [final delivered].
    cbn [fst snd length take drop] in *. by rewrite IHd, IHq.
Qed.

(** C7: the frame queue is first-in first-out.  A [processedFrame] message
    appends its frame at the back.  A callback that has an input and an
    output channel and finds the queue non-empty removes exactly the frame
    at the front and writes it (cut or zero-padded) to the first output
    channel; no callback removes more than that one frame, and none removes
    a frame without writing it.  Over any sequence of messages and
    callbacks, the frames delivered so far followed by the frames still
    queued are the frames enqueued, in arrival order; and [k] such
    callbacks in a row on a queue of at least [k] frames deliver its first
    [k] frames, in order. *)
Theorem frame_queue_fifo :
  (forall (this : Worklet.GranularProcessor T) frame,
      Worklet.outputBuffer (Worklet.onmessage this (Worklet.ProcessedFrame (Some frame)))
      = Worklet.outputBuffer this ++ [frame])
  /\ (forall (this : Worklet.GranularProcessor T) inputs outputs,
        match Worklet.process_frame this inputs outputs with
        | (this', outputs', None) =>
            Worklet.outputBuffer this' = Worklet.outputBuffer this
        | (this', outputs', Some frame) =>
            Worklet.outputBuffer this = frame :: Worklet.outputBuffer this'
            /\ exists outputChannel,
                 Worklet.first_channel outputs = Some outputChannel
                 /\ Worklet.first_channel outputs'
                    = Some (Worklet.fit (length outputChannel) frame)
        end)
  /\ (forall evs (this : Worklet.GranularProcessor T),
        Worklet.outputBuffer this ++ Worklet.enqueued evs
        = snd (Worklet.run evs this) ++ Worklet.outputBuffer (fst (Worklet.run evs this)))
  /\ (forall (this : Worklet.GranularProcessor T) inputs outputs
             inputChannel input_rest outputChannel output_rest frame rest,
        inputs !! 0 = Some (inputChannel :: input_rest) ->
        outputs !! 0 = Some (outputChannel :: output_rest) ->
        Worklet.outputBuffer this = frame :: rest ->
        Worklet.process_frame this inputs outputs
        = (Worklet.mkProcessor rest (Worklet.params this),
           <[0 := Worklet.fit (length outputChannel) frame :: output_rest]> outputs,
           Some frame)
        /\ Worklet.process this inputs outputs
           = (Worklet.mkProcessor rest (Worklet.params this),
              <[0 := Worklet.fit (length outputChannel) frame :: output_rest]> outputs,
              true)
        /\ Worklet.first_channel
             (<[0 := Worklet.fit (length outputChannel) frame :: output_rest]> outputs)
           = Some (Worklet.fit (length outputChannel) frame))
  /\ (forall (cbs : list (list (list (list T)) * list (list (list T))))
             (this : Worklet.GranularProcessor T),
        Forall (fun io => exists inputChannel input_rest outputChannel output_rest,
                            fst io !! 0 = Some (inputChannel :: input_rest)
                            /\ snd io !! 0 = Some (outputChannel :: output_rest)) cbs ->
        length cbs <= length (Worklet.outputBuffer this) ->
        snd (Worklet.run (map (fun io => Worklet.Callback (fst io) (snd io)) cbs) this)
        = take (length cbs) (Worklet.outputBuffer this)
        /\ Worklet.outputBuffer
             (fst (Worklet.run (map (fun io => Worklet.Callback (fst io) (snd io)) cbs)
                     this))
           = drop (length cbs) (Worklet.outputBuffer this)).
Proof.
  split; [done|]. split; [apply process_frame_shifts_head|].
  split.
  { induction evs as [|ev evs IH]; intros this.
    - simpl. by rewrite app_nil_r.
    - destruct ev as [data|inputs outputs].
      + cbn [Worklet.run]. rewrite <- IH.
        destruct data as [[ps|]|[frame|]|]; try done.
        cbn [Worklet.onmessage Worklet.enqueued Worklet.outputBuffer].
        by rewrite <- app_assoc.
      + cbn [Worklet.run Worklet.enqueued].
        pose proof (process_frame_shifts_head this inputs outputs) as Hshift.
        destruct (Worklet.process_frame this inputs outputs) as [[this' outputs'] shifted].
        specialize (IH this').
        destruct (Worklet.run evs this') as [final delivered].
        cbn [fst snd] in *.
        destruct shifted as [frame|].
        * destruct Hshift as [Hq _]. rewrite Hq. simpl. by rewrite <- IH.
        * by rewrite <- Hshift. }
  split; [|apply callbacks_drain_queue].
  intros this inputs outputs inputChannel input_rest outputChannel output_rest frame rest
         Hin Hout Hq.
  unfold Worklet.process.
  rewrite (process_frame_active this _ _ _ _ _ _ Hin Hout), Hq.
  split; [done|]. split; [done|].
  unfold Worklet.first_channel.
  rewrite list_lookup_insert_eq by (by apply lookup_lt_Some in Hout). done.
Qed.

(** C4 (amended): a callback never throws and leaves the output channel at
    the length the host gave it (128 for the standard quantum).  When a
    frame is queued it writes that frame, cut or zero-padded; when the
    queue is empty it copies the input channel through, cell by cell, with
    0 only where the input sample is missing or falsy. *)
Theorem process_output_frame (this : Worklet.GranularProcessor T)
    inputs outputs inputChannel input_rest outputChannel output_rest :
  inputs !! 0 = Some (inputChannel :: input_rest) ->
  outputs !! 0 = Some (outputChannel :: output_rest) ->
  exists this' frame,
    Worklet.process this inputs outputs
    = (this', <[0 := frame :: output_rest]> outputs, true)
    /\ Worklet.first_channel (<[0 := frame :: output_rest]> outputs) = Some frame
    /\ length frame = length outputChannel
    /\ (Worklet.outputBuffer this = [] ->
        this' = this
        /\ forall i, i < length outputChannel ->
             frame !! i = Some (Worklet.or_zero inputChannel i))
    /\ (forall processedFrame rest,
          Worklet.outputBuffer this = processedFrame :: rest ->
          Worklet.outputBuffer this' = rest
          /\ frame = Worklet.fit (length outputChannel) processedFrame).
Proof.
  intros Hin Hout. unfold Worklet.process.
  rewrite (process_frame_active this _ _ _ _ _ _ Hin Hout).
  assert (Hfirst : forall frame,
    Worklet.first_channel (<[0 := frame :: output_rest]> outputs) = Some frame).
  { intros frame. unfold Worklet.first_channel.
    rewrite list_lookup_insert_eq by (by apply lookup_lt_Some in Hout). done. }
  destruct (Worklet.outputBuffer this) as [|processedFrame rest] eqn:Hq.
  - eexists _, _. split; [reflexivity|]. split; [apply Hfirst|].
    split; [by rewrite length_map, length_seq|].
    split; [|intros ? ? Hcons; discriminate Hcons].
    intros _. split; [done|]. intros i Hi.
    change (map ?f ?l) with (f <$> l).
    by rewrite list_lookup_fmap, lookup_seq_lt.
  - eexists _, _. split; [reflexivity|]. split; [apply Hfirst|].
    split; [apply length_fit|].
    split; [intros Hnil; discriminate Hnil|].
    intros f q Hcons. inversion Hcons; subst. done.
Qed.

End WorkletFacts.

(** Two frames enqueued, then two callbacks: the frames come out in the
    order they went in. *)
Lemma frame_queue_fifo_witness :
  let this := Worklet.onmessage
                (Worklet.onmessage Worklet.initial (Worklet.ProcessedFrame (Some ones)))
                (Worklet.ProcessedFrame (Some zeros)) in
  let cbs := [([[zeros]], [[zeros]]); ([[ones]], [[ones]])] in
  Worklet.outputBuffer this = [ones; zeros]
  /\ Worklet.process this [[zeros]] [[zeros]]
     = (Worklet.mkProcessor [zeros] (Worklet.params this),
        <[0 := [Worklet.fit (length zeros) ones]]> [[zeros]], true)
  /\ snd (Worklet.run (map (fun io => Worklet.Callback (fst io) (snd io)) cbs) this)
     = [ones; zeros]
  /\ Worklet.outputBuffer
       (fst (Worklet.run (map (fun io => Worklet.Callback (fst io) (snd io)) cbs) this))
     = [].
Proof.
  intros this cbs.
  destruct (@frame_queue_fifo qsample qsample_ops) as (_ & _ & _ & Hhead & Hdrain).
  split; [reflexivity|]. split.
  - exact (proj1 (proj2 (Hhead this [[zeros]] [[zeros]] zeros [] zeros [] ones [zeros]
                           eq_refl eq_refl eq_refl))).
  - apply (Hdrain cbs this).
    + apply Forall_cons_2; [by exists zeros, [], zeros, []|].
      apply Forall_cons_2; [by exists ones, [], ones, []|].
      apply Forall_nil_2.
    + cbn [length Worklet.outputBuffer]. simpl. lia.
Defined.

(** C4, as stated, fails on underrun: with an empty queue the callback
    copies the input to the output, so a non-zero input gives a non-zero
    frame, not silence. *)
Lemma underrun_copies_input :
  Worklet.outputBuffer (@Worklet.initial qsample) = []
  /\ Worklet.process Worklet.initial [[ones]] [[zeros]] = (Worklet.initial, [[ones]], true)
  /\ ones !! 0 = Some (Some 1%Q)
  /\ q_same (Some 1%Q) s_zero = false.
Proof. repeat split. Qed.

Lemma process_output_frame_witness :
  exists this' frame,
    Worklet.process Worklet.initial [[ones]] [[zeros]]
    = (this', <[0 := [frame]]> [[zeros]], true)
    /\ Worklet.first_channel (<[0 := [frame]]> [[zeros]]) = Some frame
    /\ length frame = length zeros
    /\ (Worklet.outputBuffer (@Worklet.initial qsample) = [] ->
        this' = Worklet.initial
        /\ forall i, i < length zeros ->
             frame !! i = Some (Worklet.or_zero ones i))
    /\ (forall processedFrame rest,
          Worklet.outputBuffer (@Worklet.initial qsample) = processedFrame :: rest ->
          Worklet.outputBuffer this' = rest
          /\ frame = Worklet.fit (length zeros) processedFrame).
Proof.
  exact (process_output_frame Worklet.initial [[ones]] [[zeros]] ones [] zeros []
           eq_refl eq_refl).
Defined.

(** ** The selection editor *)

Section WaveformFacts.
Context {T : Type}.
Implicit Types (s : Store.GranularState T) (v : Waveform.View).
Local Open Scope Z_scope.

Lemma selection_after_setStart value s :
  Store.selectionStartSampleIx (Store.setSelectionStartSampleIx value s) = value
  /\ Store.selectionEndSampleIx (Store.setSelectionStartSampleIx value s)
     = Store.selectionEndSampleIx s.
Proof. by destruct s. Qed.

Lemma selection_after_setEnd value s :
  Store.selectionStartSampleIx (Store.setSelectionEndSampleIx value s)
  = Store.selectionStartSampleIx s
  /\ Store.selectionEndSampleIx (Store.setSelectionEndSampleIx value s) = value.
Proof. by destruct s. Qed.

(** C6: while the start marker is dragged, a pointer move sets the start to
    [min (pointerSample, selectionEnd - 1)] clamped to be at least 0 and
    leaves the end alone; with the selection at 100 to 900, the pointer at
    sample 950 gives the start 899. *)
Theorem start_marker_drag :
  (forall (len : nat) x s,
      let v := Waveform.mkView len Waveform.start_marker true in
      let pointerSample := Waveform.pixelToSample len x in
      let s' := snd (Waveform.handleMouseMove x v s) in
      fst (Waveform.handleMouseMove x v s) = v
      /\ Store.selectionStartSampleIx s'
         = Z.max 0 (Z.min pointerSample (Store.selectionEndSampleIx s - 1))
      /\ Store.selectionEndSampleIx s' = Store.selectionEndSampleIx s)
  /\ (let v := Waveform.mkView 1000 Waveform.start_marker true in
      let s' := snd (Waveform.handleMouseMove 1330 v (selected 100 900)) in
      Waveform.pixelToSample 1000 1330 = 950
      /\ Store.selectionStartSampleIx s' = 899
      /\ Store.selectionEndSampleIx s' = 900).
Proof.
  split.
  - intros len x s v pointerSample s'. unfold s', Waveform.handleMouseMove. simpl.
    split; [done|]. apply selection_after_setStart.
  - by vm_compute.
Qed.

(** A range drag that needs no clamping keeps the width of the selection. *)
Lemma range_drag_inside_keeps_width (len : nat) offset x s :
  let v := Waveform.mkView len (Waveform.selection offset) true in
  let newStart := Waveform.pixelToSample len x - offset in
  0 <= newStart ->
  newStart + Waveform.selection_width s <= Z.of_nat len ->
  Store.selectionStartSampleIx (snd (Waveform.handleMouseMove x v s)) = newStart
  /\ Waveform.selection_width (snd (Waveform.handleMouseMove x v s))
     = Waveform.selection_width s.
Proof.
  intros v newStart Hlo Hhi. unfold Waveform.handleMouseMove, Waveform.selection_width in *.
  simpl. fold newStart.
  destruct (Z.ltb_spec newStart 0); [lia|].
  destruct (Z.ltb_spec (Z.of_nat len)
              (newStart + (Store.selectionEndSampleIx s - Store.selectionStartSampleIx s)));
    [lia|].
  cbn [snd].
  destruct (selection_after_setEnd
              (newStart + (Store.selectionEndSampleIx s - Store.selectionStartSampleIx s))
              (Store.setSelectionStartSampleIx newStart s)) as [-> ->].
  destruct (selection_after_setStart newStart s) as [-> _]. lia.
Qed.

(** A range drag whose proposed start is negative puts the start at 0 and
    the end at the old end plus the deficit (capped at the length). *)
Lemma range_drag_left_clamp (len : nat) offset x s :
  let v := Waveform.mkView len (Waveform.selection offset) true in
  let newStart := Waveform.pixelToSample len x - offset in
  newStart < 0 ->
  Store.selectionStartSampleIx (snd (Waveform.handleMouseMove x v s)) = 0
  /\ Store.selectionEndSampleIx (snd (Waveform.handleMouseMove x v s))
     = Z.min (Z.of_nat len) (Store.selectionEndSampleIx s + (0 - newStart)).
Proof.
  intros v newStart Hneg. unfold Waveform.handleMouseMove. simpl. fold newStart.
  destruct (Z.ltb_spec newStart 0); [|lia]. cbn [snd].
  destruct (selection_after_setEnd
              (Z.min (Z.of_nat len) (Store.selectionEndSampleIx s + (0 - newStart)))
              (Store.setSelectionStartSampleIx 0 s)) as [-> ->].
  by destruct (selection_after_setStart 0 s) as [-> _].
Qed.

(** Pointer moves, releases and leaves keep the selection invariant. *)
Lemma move_keeps_selection_ok x v s :
  Waveform.selection_ok v s ->
  Waveform.selection_ok (fst (Waveform.handleMouseMove x v s))
                        (snd (Waveform.handleMouseMove x v s)).
Proof.
  unfold Waveform.selection_ok, Waveform.handleMouseMove.
  intros (H0 & Hlt & Hlen).
  destruct (Waveform.isDragging v); [|done]. cbn [negb].
  destruct (Waveform.dragState v) as [| | |offset]; [done| | |].
  - cbn [fst snd]. destruct s; simpl in *. lia.
  - cbn [fst snd]. destruct s; simpl in *. lia.
  - set (newStart := Waveform.pixelToSample (Waveform.data_length v) x - offset).
    destruct (Z.ltb_spec newStart 0).
    + cbn [fst snd]. destruct s; simpl in *. lia.
    + match goal with |- context [?a <? ?b] => destruct (Z.ltb_spec a b) end.
      * cbn [fst snd]. destruct s; simpl in *. lia.
      * cbn [fst snd]. destruct s; simpl in *. lia.
Qed.

End WaveformFacts.

Section MouseDownFacts.
Context {T : Type}.
Implicit Types (s : Store.GranularState T) (v : Waveform.View).
Local Open Scope Z_scope.

(** A pointer-down that starts a drag leaves the store alone. *)
Lemma down_starting_a_drag_keeps_store x v s :
  Waveform.getDragType v s x <> Waveform.none ->
  snd (Waveform.handleMouseDown x v s) = s
  /\ Waveform.data_length (fst (Waveform.handleMouseDown x v s)) = Waveform.data_length v.
Proof.
  intros Hdrag. unfold Waveform.handleMouseDown.
  by destruct (Waveform.getDragType v s x).
Qed.

(** Every move, release and leave, and every pointer-down that starts a
    drag, keeps the selection invariant. *)
Lemma handle_keeps_selection_ok (e : Waveform.PointerEvent) v s :
  Waveform.selection_ok v s ->
  (forall x, e = Waveform.MouseDown x -> Waveform.getDragType v s x <> Waveform.none) ->
  Waveform.selection_ok (fst (Waveform.handle e (v, s))) (snd (Waveform.handle e (v, s))).
Proof.
  intros Hok Hdown. destruct e as [x|x| |]; cbn [Waveform.handle fst snd].
  - destruct (down_starting_a_drag_keeps_store x v s (Hdown x eq_refl)) as [Hs Hlen].
    unfold Waveform.selection_ok in *. by rewrite Hs, Hlen.
  - by apply move_keeps_selection_ok.
  - exact Hok.
  - exact Hok.
Qed.

End MouseDownFacts.

(** C2 on the code: the selection is 0 to 200 on a buffer of 1000 samples;
    the range is grabbed at pixel 150 (sample 107) and the pointer moves to
    pixel 80 (sample 57), so the proposed start is -50.  The start is put
    at 0, but the end becomes 250: the width grows from 200 to 250, and by
    another 50 with every further move event at the same place. *)
Theorem range_drag_left_edge_grows_selection :
  let v0 := Waveform.mkView 1000 Waveform.none false in
  let s0 := selected 0 200 in
  let after1 := Waveform.handle_all [Waveform.MouseDown 150; Waveform.MouseMove 80] (v0, s0) in
  let after2 := Waveform.handle (Waveform.MouseMove 80) after1 in
  Waveform.selection_ok v0 s0
  /\ Waveform.dragState (fst (Waveform.handle (Waveform.MouseDown 150) (v0, s0)))
     = Waveform.selection 107
  /\ (Waveform.pixelToSample 1000 80 - 107 = -50)%Z
  /\ Store.selectionStartSampleIx (snd after1) = 0%Z
  /\ Store.selectionEndSampleIx (snd after1) = 250%Z
  /\ Waveform.selection_width s0 = 200%Z
  /\ Waveform.selection_width (snd after1) = 250%Z
  /\ Waveform.selection_width (snd after2) = 300%Z.
Proof.
  cbv zeta. split.
  - unfold Waveform.selection_ok. simpl. lia.
  - by vm_compute.
Qed.

(** C3 on the code: on a buffer of 2048 samples the selection 1024 to 1025
    satisfies the invariant and both markers are drawn in pixel column 700.
    A click at pixel 100 starts no drag; it is as near to the end marker as
    to the start marker, so the end is set to the clicked sample 146, left
    of the start: the invariant is broken. *)
Theorem click_left_of_narrow_selection_inverts_it :
  let v0 := Waveform.mkView 2048 Waveform.none false in
  let s0 := selected 1024 1025 in
  let after := Waveform.handle (Waveform.MouseDown 100) (v0, s0) in
  Waveform.selection_ok v0 s0
  /\ Waveform.sampleToPixel 2048 1024 = 700%Z
  /\ Waveform.sampleToPixel 2048 1025 = 700%Z
  /\ Waveform.getDragType v0 s0 100 = Waveform.none
  /\ Waveform.pixelToSample 2048 100 = 146%Z
  /\ Store.selectionStartSampleIx (snd after) = 1024%Z
  /\ Store.selectionEndSampleIx (snd after) = 146%Z
  /\ ~ Waveform.selection_ok (fst after) (snd after).
Proof.
  cbv zeta. split; [|repeat split; try by vm_compute].
  - unfold Waveform.selection_ok. simpl. lia.
  - unfold Waveform.selection_ok. vm_compute. intros (_ & Hlt & _). discriminate Hlt.
Qed.

(** * Further properties of the code *)

(** ** Engine life cycle *)

Section LifecycleFacts.
Context {T W : Type} `{SampleOps T} `{Wasm.Engine T W}.

(** X1: before the engine is loaded, [createGranularInstance] throws "WASM
    module not initialized"; once [initWasm] has resolved with a module, it
    returns an instance holding the pointer the engine handed out, and
    [renderFrame] on that instance returns a frame of 128 samples. *)
Theorem engine_lifecycle (m : W) (params : Wasm.GranularParams) :
  Wasm.createGranularInstance (@WasmInit.start W)
  = JS.Throw Wasm.not_initialized_message
  /\ exists rt1 rt2 rt3 inst frame,
       WasmInit.initWasm (JS.Ok m) WasmInit.start = JS.Ok rt1
       /\ Wasm.createGranularInstance rt1 = JS.Ok (rt2, inst)
       /\ Wasm.instancePtr inst = Some (snd (Wasm.create_granular_instance m))
       /\ Wasm.renderFrame rt2 inst params = JS.Ok (rt3, frame)
       /\ length frame = 128.
Proof.
  split; [reflexivity|].
  destruct (Wasm.create_granular_instance m) as [m1 ptr] eqn:Hcreate.
  exists (Wasm.mkRuntime true (Some m)), (Wasm.mkRuntime true (Some m1)).
  eexists _, (Wasm.mkInstance (Some ptr)), _.
  split; [reflexivity|]. split.
  { unfold Wasm.createGranularInstance, Wasm.newGranularInstance.
    cbn [Wasm.wasmInitialized Wasm.wasmModule negb]. by rewrite Hcreate. }
  split; [reflexivity|]. split.
  - apply renderFrame_live.
  - apply engine_render_length.
Qed.

Lemma initWasm_all_initialized (inits : list (JS.result W)) (rt : Wasm.Runtime W) :
  Wasm.wasmInitialized rt = true -> WasmInit.initWasm_all inits rt = rt.
Proof.
  intros Hinit. induction inits as [|init inits IH]; [done|].
  unfold WasmInit.initWasm_all in *. cbn [foldl].
  unfold WasmInit.initWasm at 2, WasmInit.initWasm_guard. by rewrite Hinit.
Qed.

Lemma initWasm_all_first_resolved (inits : list (JS.result W)) :
  Wasm.wasmModule (WasmInit.initWasm_all inits WasmInit.start)
  = WasmInit.first_resolved inits
  /\ Wasm.wasmInitialized (WasmInit.initWasm_all inits WasmInit.start)
     = match WasmInit.first_resolved inits with Some _ => true | None => false end.
Proof.
  induction inits as [|[m|error] inits IH]; [done| |].
  - unfold WasmInit.initWasm_all. cbn [foldl].
    change (foldl _ ?r inits) with (WasmInit.initWasm_all inits r).
    unfold WasmInit.initWasm, WasmInit.initWasm_guard, WasmInit.initWasm_settle,
      WasmInit.start.
    cbn [Wasm.wasmInitialized].
    by rewrite initWasm_all_initialized.
  - exact IH.
Qed.

(** X2: the guard of [initWasm] protects calls that are awaited, not calls
    that overlap.  When each call is awaited before the next is made, the
    engine is loaded once: the module kept is that of the first call whose
    loader resolved, and the flag stays false while every loader rejected.
    A call made after a loader resolved returns at once.  But two calls
    made before either loader resolved both load, and the module kept is
    the one that resolved last, whichever call it belongs to. *)
Theorem initWasm_awaited_and_overlapping :
  (forall inits : list (JS.result W),
      Wasm.wasmModule (WasmInit.initWasm_all inits WasmInit.start)
      = WasmInit.first_resolved inits
      /\ Wasm.wasmInitialized (WasmInit.initWasm_all inits WasmInit.start)
         = match WasmInit.first_resolved inits with Some _ => true | None => false end)
  /\ (forall (rt : Wasm.Runtime W) pending (init : JS.result W),
        Wasm.wasmInitialized rt = true ->
        WasmInit.step (rt, pending) (WasmInit.Invoke init) = (rt, pending))
  /\ (forall (rt : Wasm.Runtime W) (m1 m2 : W),
        Wasm.wasmInitialized rt = false ->
        WasmInit.run_schedule
          [WasmInit.Invoke (JS.Ok m1); WasmInit.Invoke (JS.Ok m2);
           WasmInit.Settle 0; WasmInit.Settle 0] (rt, [])
        = (Wasm.mkRuntime true (Some m2), [])
        /\ WasmInit.run_schedule
             [WasmInit.Invoke (JS.Ok m1); WasmInit.Invoke (JS.Ok m2);
              WasmInit.Settle 1; WasmInit.Settle 0] (rt, [])
           = (Wasm.mkRuntime true (Some m1), [])
        /\ WasmInit.run_schedule
             [WasmInit.Invoke (JS.Ok m1); WasmInit.Settle 0;
              WasmInit.Invoke (JS.Ok m2); WasmInit.Settle 0] (rt, [])
           = (Wasm.mkRuntime true (Some m1), [])).
Proof.
  split; [exact initWasm_all_first_resolved|]. split.
  - intros rt pending init Hinit.
    unfold WasmInit.step, WasmInit.initWasm_guard. by rewrite Hinit.
  - intros [init m] m1 m2 Hinit. simpl in Hinit. subst init.
    by repeat split.
Qed.

(** X3: whenever [renderFrame] returns, the frame has exactly 128 samples,
    the instance was live, the engine module is still present, and the
    initialisation flag is untouched. *)
Theorem renderFrame_returns_128 (rt rt' : Wasm.Runtime W)
    (this : Wasm.GranularInstance) (params : Wasm.GranularParams) (frame : list T) :
  Wasm.renderFrame rt this params = JS.Ok (rt', frame) ->
  length frame = 128
  /\ Wasm.wasmInitialized rt' = Wasm.wasmInitialized rt
  /\ is_Some (Wasm.instancePtr this)
  /\ is_Some (Wasm.wasmModule rt)
  /\ is_Some (Wasm.wasmModule rt').
Proof.
  destruct rt as [init [w|]], this as [[p|]]; try discriminate.
  rewrite renderFrame_live. intros Hok. inversion Hok; subst.
  split; [apply engine_render_length|]. by repeat split.
Qed.

(** Writing [f 0 .. f (n - 1)] to consecutive cells, on a memory whose
    cells are independent. *)
Lemma write_loop (offset : Z) (f : nat -> T) (n : nat) (w : W) :
  (forall mem ix v, Wasm.mem_read (Wasm.mem_write mem ix v) ix = v) ->
  (forall mem ix iy v, ix <> iy ->
     Wasm.mem_read (Wasm.mem_write mem ix v) iy = Wasm.mem_read mem iy) ->
  let w2 := JS.for_loop 0 n
              (fun i mem => Wasm.mem_write mem (offset + Z.of_nat i)%Z (f i)) w in
  (forall i, i < n -> Wasm.mem_read w2 (offset + Z.of_nat i)%Z = f i)
  /\ (forall ix, (ix < offset \/ offset + Z.of_nat n <= ix)%Z ->
        Wasm.mem_read w2 ix = Wasm.mem_read w ix).
Proof.
  intros Hsame Hother. cbv zeta.
  induction n as [|n [IHin IHout]].
  - rewrite for_loop_nil. split; [lia|done].
  - rewrite for_loop_snoc by lia. split.
    + intros i Hi. destruct (decide (i = n)) as [->|Hne].
      * apply Hsame.
      * rewrite Hother by lia. apply IHin. lia.
    + intros ix Hix. rewrite Hother by lia. apply IHout. lia.
Qed.

(** X4: on an engine memory whose cells are independent, [setWaveform] on
    a live instance copies the waveform, sample by sample, to the cells
    starting at the (4-byte aligned) address the engine returned, and
    changes no other cell. *)
Theorem setWaveform_uploads (rt : Wasm.Runtime W) (p ptr : Z) (w w1 : W)
    (waveform : list T) :
  (forall mem ix v, Wasm.mem_read (Wasm.mem_write mem ix v) ix = v) ->
  (forall mem ix iy v, ix <> iy ->
     Wasm.mem_read (Wasm.mem_write mem ix v) iy = Wasm.mem_read mem iy) ->
  Wasm.wasmModule rt = Some w ->
  Wasm.get_granular_waveform_ptr w p (length waveform) = (w1, ptr) ->
  (ptr mod 4 = 0)%Z ->
  exists w2,
    Wasm.setWaveform rt (Wasm.mkInstance (Some p)) waveform
    = JS.Ok (Wasm.mkRuntime (Wasm.wasmInitialized rt) (Some w2))
    /\ (forall i x, waveform !! i = Some x ->
          Wasm.mem_read w2 (ptr / 4 + Z.of_nat i)%Z = x)
    /\ (forall ix, (ix < ptr / 4 \/ ptr / 4 + Z.of_nat (length waveform) <= ix)%Z ->
          Wasm.mem_read w2 ix = Wasm.mem_read w1 ix).
Proof.
  intros Hsame Hother Hmod Hptr _.
  unfold Wasm.setWaveform. cbn [Wasm.instancePtr]. rewrite Hmod, Hptr.
  eexists. split; [reflexivity|].
  destruct (write_loop (ptr / 4) (fun i => read waveform i) (length waveform) w1
              Hsame Hother) as [Hin Hout].
  split; [|exact Hout].
  intros i x Hx. rewrite Hin by (by apply lookup_lt_Some in Hx).
  unfold read. by rewrite Hx.
Qed.

(** X5: with the engine loaded, [reset] always succeeds and leaves the
    store in its initial state; the engine instance the store held is
    freed if it was live; a second [reset] changes nothing. *)
Theorem reset_restores_initial_state (rt : Wasm.Runtime W)
    (s : Store.GranularState T) (w : W) :
  Wasm.wasmModule rt = Some w ->
  exists rt',
    StoreReset.reset rt s = JS.Ok (rt', Store.initialState)
    /\ Wasm.wasmModule rt'
       = Some (match Store.granularInstance s with
               | Some (Wasm.mkInstance (Some p)) => Wasm.free_granular_instance w p
               | _ => w
               end)
    /\ StoreReset.reset rt' (@Store.initialState T) = JS.Ok (rt', Store.initialState).
Proof.
  intros Hmod. unfold StoreReset.reset.
  destruct (Store.granularInstance s) as [[[p|]]|].
  - unfold Wasm.free. cbn [Wasm.instancePtr]. rewrite Hmod.
    eexists. split; [reflexivity|]. by split.
  - eexists. split; [reflexivity|]. by split.
  - eexists. split; [reflexivity|]. by split.
Qed.

End LifecycleFacts.

Lemma renderFrame_returns_128_witness :
  exists rt' frame,
    Wasm.renderFrame TestEngine.runtime TestEngine.instance
      (Store.getGranularParams (TestEngine.loaded 4)) = JS.Ok (rt', frame)
    /\ length frame = 128
    /\ Wasm.wasmInitialized rt' = Wasm.wasmInitialized TestEngine.runtime
    /\ is_Some (Wasm.instancePtr TestEngine.instance)
    /\ is_Some (Wasm.wasmModule TestEngine.runtime)
    /\ is_Some (Wasm.wasmModule rt').
Proof.
  exists (Wasm.mkRuntime true (Some (TestEngine.mkEngine 1 []))),
         (replicate 128 (Some 1%Q)).
  split; [reflexivity|].
  exact (renderFrame_returns_128 TestEngine.runtime
           (Wasm.mkRuntime true (Some (TestEngine.mkEngine 1 [])))
           TestEngine.instance (Store.getGranularParams (TestEngine.loaded 4))
           (replicate 128 (Some 1%Q)) eq_refl).
Defined.

Lemma array_engine_same_cell (mem : ArrayEngine.state) ix v :
  @Wasm.mem_read _ _ ArrayEngine.engine (@Wasm.mem_write _ _ ArrayEngine.engine mem ix v) ix
  = v.
Proof. simpl. by rewrite Z.eqb_refl. Defined.

Lemma array_engine_other_cell (mem : ArrayEngine.state) ix iy v :
  ix <> iy ->
  @Wasm.mem_read _ _ ArrayEngine.engine (@Wasm.mem_write _ _ ArrayEngine.engine mem ix v) iy
  = @Wasm.mem_read _ _ ArrayEngine.engine mem iy.
Proof.
  intros Hne. simpl. by destruct (Z.eqb_spec ix iy).
Defined.

Lemma setWaveform_uploads_witness :
  let rt := Wasm.mkRuntime true (Some (ArrayEngine.mkArray [])) in
  let waveform := [Some 5%Q; Some 7%Q] in
  exists w2,
    @Wasm.setWaveform _ _ _ ArrayEngine.engine rt (Wasm.mkInstance (Some 64%Z)) waveform
    = JS.Ok (Wasm.mkRuntime true (Some w2))
    /\ (forall i x, waveform !! i = Some x ->
          @Wasm.mem_read _ _ ArrayEngine.engine w2 (4096 / 4 + Z.of_nat i)%Z = x)
    /\ (forall ix, (ix < 4096 / 4 \/ 4096 / 4 + Z.of_nat (length waveform) <= ix)%Z ->
          @Wasm.mem_read _ _ ArrayEngine.engine w2 ix
          = @Wasm.mem_read _ _ ArrayEngine.engine (ArrayEngine.mkArray []) ix).
Proof.
  intros rt waveform.
  exact (@setWaveform_uploads qsample ArrayEngine.state qsample_ops ArrayEngine.engine
           rt 64%Z 4096%Z (ArrayEngine.mkArray []) (ArrayEngine.mkArray []) waveform
           array_engine_same_cell array_engine_other_cell eq_refl eq_refl eq_refl).
Defined.

Lemma reset_restores_initial_state_witness :
  exists rt',
    StoreReset.reset TestEngine.runtime (TestEngine.loaded 4)
    = JS.Ok (rt', Store.initialState)
    /\ Wasm.wasmModule rt' = Some (TestEngine.mkEngine 0 [])
    /\ StoreReset.reset rt' (@Store.initialState qsample) = JS.Ok (rt', Store.initialState).
Proof.
  exact (reset_restores_initial_state TestEngine.runtime (TestEngine.loaded 4)
           (TestEngine.mkEngine 0 []) eq_refl).
Defined.

(** ** The audio worklet, beyond the queue discipline *)

Section WorkletExtras.
Context {T : Type} `{SampleOps T}.

(** X6: callbacks that come without an input channel deliver nothing and
    consume nothing: over any run made of messages and such callbacks, no
    frame leaves the queue, which ends up holding every frame enqueued. *)
Theorem callbacks_without_input_keep_queue
    (evs : list Worklet.Event) (this : Worklet.GranularProcessor T) :
  Forall (fun ev => match ev with
                    | Worklet.Callback inputs _ =>
                        inputs !! 0 = None \/ inputs !! 0 = Some []
                    | Worklet.Message _ => True
                    end) evs ->
  snd (Worklet.run evs this) = []
  /\ Worklet.outputBuffer (fst (Worklet.run evs this))
     = Worklet.outputBuffer this ++ Worklet.enqueued evs.
Proof.
  intros Hall. revert this.
  induction Hall as [|ev evs Hev Hall IH]; intros this.
  - simpl. by rewrite app_nil_r.
  - destruct ev as [data|inputs outputs]; cbn [Worklet.run].
    + destruct (IH (Worklet.onmessage this data)) as [-> ->].
      split; [done|].
      destruct data as [[ps|]|[frame|]|]; try done.
      cbn [Worklet.onmessage Worklet.enqueued Worklet.outputBuffer].
      by rewrite <- app_assoc.
    + assert (Hidle : Worklet.process_frame this inputs outputs = (this, outputs, None)).
      { unfold Worklet.process_frame. by destruct Hev as [-> | ->]. }
      rewrite Hidle. specialize (IH this).
      destruct (Worklet.run evs this) as [final delivered].
      cbn [fst snd] in *. by destruct IH as [-> ->].
Qed.

(** X7: a callback writes to the first channel of the first output only.
    Every other output, and every other channel of the first output, is
    left as the host passed it, and the first channel keeps its length. *)
Theorem process_touches_first_channel_only (this : Worklet.GranularProcessor T)
    (inputs outputs : list (list (list T))) :
  let outputs' := snd (fst (Worklet.process this inputs outputs)) in
  length outputs' = length outputs
  /\ (forall k, k <> 0 -> outputs' !! k = outputs !! k)
  /\ (forall output, outputs !! 0 = Some output ->
        exists output',
          outputs' !! 0 = Some output'
          /\ length output' = length output
          /\ (forall c, c <> 0 -> output' !! c = output !! c)
          /\ (length <$> output' !! 0) = (length <$> output !! 0)).
Proof.
  cbv zeta. unfold Worklet.process.
  destruct (inputs !! 0) as [[|inputChannel input_rest]|] eqn:Hin;
    [ | |].
  1,3: unfold Worklet.process_frame; rewrite Hin; cbn [fst snd];
       split; [done|]; split; [done|]; intros output Hout; exists output; by rewrite Hout.
  destruct (outputs !! 0) as [[|outputChannel output_rest]|] eqn:Hout.
  1,3: unfold Worklet.process_frame; rewrite Hin, Hout; cbn [fst snd];
       split; [done|]; split; [done|]; intros output Hout'; exists output;
       by rewrite Hout in *.
  rewrite (process_frame_active this _ _ _ _ _ _ Hin Hout).
  assert (Hlt : 0 < length outputs) by (by apply lookup_lt_Some in Hout).
  destruct (Worklet.outputBuffer this) as [|processedFrame rest]; cbn [fst snd].
  - split; [apply length_insert|]. split.
    + intros k Hk. by rewrite list_lookup_insert_ne.
    + intros output Hout'. inversion Hout'; subst.
      eexists. split; [by apply list_lookup_insert_eq|].
      split; [done|]. split; [by intros [|c]|].
      simpl. by rewrite length_map, length_seq.
  - split; [apply length_insert|]. split.
    + intros k Hk. by rewrite list_lookup_insert_ne.
    + intros output Hout'. inversion Hout'; subst.
      eexists. split; [by apply list_lookup_insert_eq|].
      split; [done|]. split; [by intros [|c]|].
      simpl. by rewrite length_fit.
Qed.

(** X8: a frame of exactly the quantum length goes through unchanged.
    Enqueued on an empty queue and followed by a callback with an input
    and an output channel, it becomes the first output channel as it is,
    and the processor is back where it was. *)
Theorem exact_frame_round_trip (this : Worklet.GranularProcessor T)
    (frame : list T) inputs outputs inputChannel input_rest outputChannel output_rest :
  Worklet.outputBuffer this = [] ->
  inputs !! 0 = Some (inputChannel :: input_rest) ->
  outputs !! 0 = Some (outputChannel :: output_rest) ->
  length frame = length outputChannel ->
  Worklet.process (Worklet.onmessage this (Worklet.ProcessedFrame (Some frame)))
                  inputs outputs
  = (this, <[0 := frame :: output_rest]> outputs, true).
Proof.
  intros Hempty Hin Hout Hlen. unfold Worklet.process.
  rewrite (process_frame_active _ _ _ _ _ _ _ Hin Hout).
  cbn [Worklet.onmessage Worklet.outputBuffer Worklet.params].
  rewrite Hempty. cbn [app].
  unfold Worklet.fit. rewrite <- Hlen, Nat.sub_diag, firstn_all. cbn [replicate].
  rewrite app_nil_r. destruct this as [queue ps]. simpl in Hempty. by subst.
Qed.

Lemma get_put (key key' : string) (value : Q) (object : list (string * Q)) :
  WorkletParams.get key (Worklet.put key' value object)
  = if String.eqb key' key then Some value else WorkletParams.get key object.
Proof.
  induction object as [|[k v] rest IH]; simpl.
  - done.
  - destruct (String.eqb_spec k key') as [->|Hne]; simpl.
    + by destruct (String.eqb key' key).
    + destruct (String.eqb_spec k key) as [->|Hne'].
      * destruct (String.eqb_spec key' key) as [->|_]; [done|done].
      * exact IH.
Qed.

(** X9: an [updateParams] message merges its object into the parameters:
    a key it lists takes the (last) listed value, every other key keeps
    its value; the frame queue is not touched. *)
Theorem updateParams_merges (this : Worklet.GranularProcessor T)
    (ps : list (string * Q)) (key : string) :
  let this' := Worklet.onmessage this (Worklet.UpdateParams (Some ps)) in
  WorkletParams.get key (Worklet.params this')
  = match WorkletParams.assigned key ps with
    | Some value => Some value
    | None => WorkletParams.get key (Worklet.params this)
    end
  /\ Worklet.outputBuffer this' = Worklet.outputBuffer this.
Proof.
  cbv zeta. cbn [Worklet.onmessage Worklet.params Worklet.outputBuffer].
  split; [|done].
  unfold Worklet.object_assign, WorkletParams.assigned.
  induction ps as [|[k v] ps IH] using rev_ind; [done|].
  rewrite !foldl_app. cbn [foldl fst snd].
  rewrite get_put. by destruct (String.eqb k key).
Qed.

End WorkletExtras.

Lemma callbacks_without_input_keep_queue_witness :
  let evs := [Worklet.Message (Worklet.ProcessedFrame (Some ones));
              Worklet.Callback [[]] [[zeros]];
              Worklet.Callback [] [[zeros]];
              Worklet.Message (Worklet.ProcessedFrame (Some zeros))] in
  snd (Worklet.run evs Worklet.initial) = []
  /\ Worklet.outputBuffer (fst (Worklet.run evs Worklet.initial))
     = Worklet.outputBuffer (@Worklet.initial qsample) ++ Worklet.enqueued evs.
Proof.
  intros evs.
  apply (callbacks_without_input_keep_queue evs Worklet.initial).
  apply Forall_cons_2; [exact I|].
  apply Forall_cons_2; [right; reflexivity|].
  apply Forall_cons_2; [left; reflexivity|].
  apply Forall_cons_2; [exact I|].
  apply Forall_nil_2.
Defined.

Lemma exact_frame_round_trip_witness :
  Worklet.process
    (Worklet.onmessage Worklet.initial (Worklet.ProcessedFrame (Some ones)))
    [[zeros]] [[zeros; zeros]]
  = (Worklet.initial, <[0 := [ones; zeros]]> [[zeros; zeros]], true).
Proof.
  exact (exact_frame_round_trip Worklet.initial ones [[zeros]] [[zeros; zeros]]
           zeros [] zeros [zeros] eq_refl eq_refl eq_refl eq_refl).
Defined.

(** ** The bundled worklet *)

Section PublicWorkletFacts.
Context {T W : Type} `{SampleOps T}.

(** X10: the bundled worklet is a pure pass-through.  With an input and an
    output channel, every cell of the first output channel receives the
    input sample at the same index when that sample exists and is truthy,
    and 0 otherwise; the processor is unchanged, and its parameters and
    whatever messages it received play no part in the audio. *)
Theorem public_process_passes_input_through (this other : PublicWorklet.GranularProcessor W)
    inputs outputs inputChannel input_rest outputChannel output_rest :
  inputs !! 0 = Some (inputChannel :: input_rest) ->
  outputs !! 0 = Some (outputChannel :: output_rest) ->
  exists frame,
    PublicWorklet.process this inputs outputs
    = (this, <[0 := frame :: output_rest]> outputs, true)
    /\ PublicWorklet.process other inputs outputs
       = (other, <[0 := frame :: output_rest]> outputs, true)
    /\ length frame = length outputChannel
    /\ (forall i, i < length outputChannel ->
          frame !! i = Some (Worklet.or_zero inputChannel i))
    /\ (forall i x, i < length outputChannel -> inputChannel !! i = Some x ->
          s_truthy x = true -> frame !! i = Some x).
Proof.
  intros Hin Hout. unfold PublicWorklet.process. rewrite Hin, Hout.
  rewrite fill_all. cbn [insert list_insert].
  eexists. split; [reflexivity|]. split; [reflexivity|].
  assert (Hcell : forall i, i < length outputChannel ->
            map (Worklet.or_zero inputChannel) (seq 0 (length outputChannel)) !! i
            = Some (Worklet.or_zero inputChannel i)).
  { intros i Hi. change (map ?f ?l) with (f <$> l).
    by rewrite list_lookup_fmap, lookup_seq_lt. }
  split; [by rewrite length_map, length_seq|]. split; [exact Hcell|].
  intros i x Hi Hx Htruthy. rewrite Hcell by done.
  unfold Worklet.or_zero. by rewrite Hx, Htruthy.
Qed.

(** X11: the two parameters of the bundled worklet never become zero.
    Starting from non-zero values (512 and 20 at construction), after any
    sequence of messages [grainSize] and [density] are still non-zero: a
    zero or missing value in [updateParams] leaves the current one. *)
Theorem public_params_stay_nonzero
    (msgs : list (PublicWorklet.MessageData W)) (this : PublicWorklet.GranularProcessor W) :
  Qeq_bool (PublicWorklet.grainSize this) 0 = false ->
  Qeq_bool (PublicWorklet.density this) 0 = false ->
  let this' := foldl PublicWorklet.onmessage this msgs in
  Qeq_bool (PublicWorklet.grainSize this') 0 = false
  /\ Qeq_bool (PublicWorklet.density this') 0 = false.
Proof.
  revert this. induction msgs as [|msg msgs IH]; intros this Hg Hd; [done|].
  cbn [foldl]. apply IH.
  - destruct msg as [[g|] d|m|]; try done.
    cbn [PublicWorklet.onmessage PublicWorklet.grainSize PublicWorklet.or_else].
    by destruct (Qeq_bool g 0) eqn:Hz.
  - destruct msg as [g [d|]|m|]; try done.
    cbn [PublicWorklet.onmessage PublicWorklet.density PublicWorklet.or_else].
    by destruct (Qeq_bool d 0) eqn:Hz.
Qed.

End PublicWorkletFacts.

Lemma public_process_passes_input_through_witness :
  exists frame,
    PublicWorklet.process (@PublicWorklet.initial nat) [[ones]] [[zeros]]
    = (PublicWorklet.initial, <[0 := [frame]]> [[zeros]], true)
    /\ PublicWorklet.process (PublicWorklet.mkProcessor 64 1 (Some 7)) [[ones]] [[zeros]]
       = (PublicWorklet.mkProcessor 64 1 (Some 7), <[0 := [frame]]> [[zeros]], true)
    /\ length frame = length zeros
    /\ (forall i, i < length zeros -> frame !! i = Some (Worklet.or_zero ones i))
    /\ (forall i x, i < length zeros -> ones !! i = Some x ->
          s_truthy x = true -> frame !! i = Some x).
Proof.
  exact (public_process_passes_input_through
           (@PublicWorklet.initial nat) (PublicWorklet.mkProcessor 64 1 (Some 7))
           [[ones]] [[zeros]] ones [] zeros [] eq_refl eq_refl).
Defined.

Lemma public_params_stay_nonzero_witness :
  let this' := foldl PublicWorklet.onmessage (@PublicWorklet.initial nat)
                 [PublicWorklet.UpdateParams (Some 0%Q) None;
                  PublicWorklet.UpdateParams (Some 256%Q) (Some 0%Q);
                  PublicWorklet.InitWasm (Some 3)] in
  Qeq_bool (PublicWorklet.grainSize this') 0 = false
  /\ Qeq_bool (PublicWorklet.density this') 0 = false.
Proof.
  exact (public_params_stay_nonzero
           [PublicWorklet.UpdateParams (Some 0%Q) None;
            PublicWorklet.UpdateParams (Some 256%Q) (Some 0%Q);
            PublicWorklet.InitWasm (Some 3)]
           (@PublicWorklet.initial nat) eq_refl eq_refl).
Defined.

(** ** The selection editor, beyond the start marker *)

Section EditorExtras.
Context {T : Type}.
Implicit Types (s : Store.GranularState T) (v : Waveform.View).
Local Open Scope Z_scope.

(** X12: while the end marker is dragged, a pointer move sets the end to
    [max (pointerSample, selectionStart + 1)] capped at the data length and
    leaves the start alone; on a valid selection the new end lies strictly
    right of the start and inside the buffer. *)
Theorem end_marker_drag (len : nat) x s :
  let v := Waveform.mkView len Waveform.end_marker true in
  Waveform.selection_ok v s ->
  let s' := snd (Waveform.handleMouseMove x v s) in
  fst (Waveform.handleMouseMove x v s) = v
  /\ Store.selectionEndSampleIx s'
     = Z.min (Z.of_nat len)
             (Z.max (Waveform.pixelToSample len x) (Store.selectionStartSampleIx s + 1))
  /\ Store.selectionStartSampleIx s' = Store.selectionStartSampleIx s
  /\ Store.selectionStartSampleIx s' < Store.selectionEndSampleIx s' <= Z.of_nat len.
Proof.
  intros v (H0 & Hlt & Hlen) s'. unfold s', Waveform.handleMouseMove. simpl in *.
  destruct (selection_after_setEnd
              (Z.min (Z.of_nat len)
                 (Z.max (Waveform.pixelToSample len x) (Store.selectionStartSampleIx s + 1)))
              s) as [-> ->].
  repeat split; lia.
Qed.

Lemma idle_move_does_nothing (len : nat) x s :
  Waveform.handle (Waveform.MouseMove x) (Waveform.mkView len Waveform.none false, s)
  = (Waveform.mkView len Waveform.none false, s).
Proof. reflexivity. Qed.

Lemma idle_moves_do_nothing (len : nat) (xs : list Z) s :
  Waveform.handle_all (map Waveform.MouseMove xs)
                      (Waveform.mkView len Waveform.none false, s)
  = (Waveform.mkView len Waveform.none false, s).
Proof.
  unfold Waveform.handle_all.
  induction xs as [|x xs IH]; [done|].
  cbn [map foldl]. by rewrite idle_move_does_nothing.
Qed.

(** X13: no stuck drags.  After a pointer-up or a pointer-leave, whatever
    the state was, the editor is idle and pointer moves, however many,
    leave the selection and the whole store as they are. *)
Theorem release_ends_drag v s (xs : list Z) :
  Waveform.handle_all (map Waveform.MouseMove xs)
                      (Waveform.handle Waveform.MouseUp (v, s))
  = (Waveform.mkView (Waveform.data_length v) Waveform.none false, s)
  /\ Waveform.handle_all (map Waveform.MouseMove xs)
                         (Waveform.handle Waveform.MouseLeave (v, s))
     = (Waveform.mkView (Waveform.data_length v) Waveform.none false, s).
Proof.
  cbn [Waveform.handle Waveform.handleMouseUp Waveform.handleMouseLeave fst snd].
  split; apply idle_moves_do_nothing.
Qed.

(** X14: a range drag never narrows the selection.  On a valid selection,
    the width after a pointer move in the range-drag state is at least the
    width before and at most the data length. *)
Theorem range_drag_never_shrinks (len : nat) offset x s :
  let v := Waveform.mkView len (Waveform.selection offset) true in
  Waveform.selection_ok v s ->
  let s' := snd (Waveform.handleMouseMove x v s) in
  Waveform.selection_width s <= Waveform.selection_width s' <= Z.of_nat len.
Proof.
  intros v (H0 & Hlt & Hlen). cbv zeta.
  unfold Waveform.selection_width, Waveform.handleMouseMove. simpl in *.
  set (newStart := Waveform.pixelToSample len x - offset).
  destruct (Z.ltb_spec newStart 0).
  - cbn [snd]. destruct s; simpl in *. lia.
  - match goal with |- context [?a <? ?b] => destruct (Z.ltb_spec a b) end.
    + cbn [snd]. destruct s; simpl in *. lia.
    + cbn [snd]. destruct s; simpl in *. lia.
Qed.

(** X17: grabbing the range and moving the pointer shifts the selection by
    the pointer's movement in samples.  After a pointer-down inside the
    selection at pixel [x] and a move to pixel [x'], with [d] the difference
    of the two pointer samples and the shifted range inside the buffer, the
    selection is the old one moved by [d]; in particular a move to the same
    pixel changes nothing. *)
Theorem range_drag_translates v s x x' :
  Waveform.selection_ok v s ->
  Waveform.getDragType v s x = Waveform.selection 0 ->
  let len := Waveform.data_length v in
  let d := Waveform.pixelToSample len x' - Waveform.pixelToSample len x in
  0 <= Store.selectionStartSampleIx s + d ->
  Store.selectionEndSampleIx s + d <= Z.of_nat len ->
  let after := Waveform.handle_all [Waveform.MouseDown x; Waveform.MouseMove x'] (v, s) in
  fst after
  = Waveform.mkView len
      (Waveform.selection (Waveform.pixelToSample len x - Store.selectionStartSampleIx s))
      true
  /\ Store.selectionStartSampleIx (snd after) = Store.selectionStartSampleIx s + d
  /\ Store.selectionEndSampleIx (snd after) = Store.selectionEndSampleIx s + d.
Proof.
  intros Hok Hgrab len d Hlo Hhi after. unfold after, Waveform.handle_all.
  cbn [foldl Waveform.handle fst snd].
  unfold Waveform.handleMouseDown. rewrite Hgrab. cbn [fst snd].
  unfold Waveform.handleMouseMove.
  cbn [Waveform.isDragging Waveform.dragState Waveform.data_length negb].
  fold len.
  set (newStart := Waveform.pixelToSample len x'
                   - (Waveform.pixelToSample len x - Store.selectionStartSampleIx s)).
  assert (HnewStart : newStart = Store.selectionStartSampleIx s + d)
    by (unfold newStart, d; lia).
  destruct (Z.ltb_spec newStart 0); [lia|].
  match goal with |- context [?a <? ?b] => destruct (Z.ltb_spec a b) end; [lia|].
  cbn [fst snd]. split; [done|].
  destruct s; simpl in *. lia.
Qed.

End EditorExtras.

Lemma end_marker_drag_witness :
  let v := Waveform.mkView 1000 Waveform.end_marker true in
  let s' := snd (Waveform.handleMouseMove 70 v (selected 100 900)) in
  Waveform.selection_ok v (selected 100 900)
  /\ Waveform.pixelToSample 1000 70 = 50%Z
  /\ Store.selectionEndSampleIx s' = 101%Z
  /\ Store.selectionStartSampleIx s' = 100%Z.
Proof.
  intros v s'.
  assert (Hok : Waveform.selection_ok v (selected 100 900)).
  { unfold Waveform.selection_ok. simpl. lia. }
  destruct (end_marker_drag 1000 70 (selected 100 900) Hok) as (_ & Hend & Hstart & _).
  split; [exact Hok|]. split; [reflexivity|].
  split; [exact Hend|exact Hstart].
Defined.

Lemma range_drag_never_shrinks_witness :
  let v := Waveform.mkView 1000 (Waveform.selection 107) true in
  let s' := snd (Waveform.handleMouseMove 80 v (selected 0 200)) in
  Waveform.selection_ok v (selected 0 200)
  /\ (Waveform.selection_width (selected 0 200) <= Waveform.selection_width s' <= 1000)%Z.
Proof.
  intros v s'.
  assert (Hok : Waveform.selection_ok v (selected 0 200)).
  { unfold Waveform.selection_ok. simpl. lia. }
  split; [exact Hok|].
  exact (range_drag_never_shrinks 1000 107 80 (selected 0 200) Hok).
Defined.

Lemma range_drag_translates_witness :
  let v := Waveform.mkView 1000 Waveform.none false in
  let s := selected 100 900 in
  let after := Waveform.handle_all [Waveform.MouseDown 700; Waveform.MouseMove 770] (v, s) in
  Waveform.getDragType v s 700 = Waveform.selection 0
  /\ (Waveform.pixelToSample 1000 770 - Waveform.pixelToSample 1000 700 = 50)%Z
  /\ Store.selectionStartSampleIx (snd after) = 150%Z
  /\ Store.selectionEndSampleIx (snd after) = 950%Z.
Proof.
  intros v s after.
  assert (Hok : Waveform.selection_ok v s).
  { unfold Waveform.selection_ok. simpl. lia. }
  assert (Hgrab : Waveform.getDragType v s 700 = Waveform.selection 0) by reflexivity.
  assert (Hlo : (0 <= Store.selectionStartSampleIx s
                      + (Waveform.pixelToSample (Waveform.data_length v) 770
                         - Waveform.pixelToSample (Waveform.data_length v) 700))%Z)
    by (vm_compute; discriminate).
  assert (Hhi : (Store.selectionEndSampleIx s
                 + (Waveform.pixelToSample (Waveform.data_length v) 770
                    - Waveform.pixelToSample (Waveform.data_length v) 700)
                 <= Z.of_nat (Waveform.data_length v))%Z)
    by (vm_compute; discriminate).
  destruct (range_drag_translates v s 700 770 Hok Hgrab Hlo Hhi) as (_ & Hs & He).
  split; [exact Hgrab|]. split; [reflexivity|].
  split; [exact Hs|exact He].
Defined.

(** ** The offline renderer and the page around it *)

Section PageFacts.
Context {T W : Type} `{SampleOps T} `{Wasm.Engine T W}.

(** The result of [processOffline] on a live instance, in closed form. *)
Lemma processOffline_live (rt : Wasm.Runtime W) (s : Store.GranularState T)
    (p : Z) (w : W) (audioBuffer : Audio.AudioBuffer T) (inputData : list T) :
  Store.granularInstance s = Some (Wasm.mkInstance (Some p)) ->
  Store.audioBuffer s = Some audioBuffer ->
  Wasm.wasmInitialized rt = true ->
  Wasm.wasmModule rt = Some w ->
  Audio.audioBufferToFloat32Array audioBuffer = JS.Ok inputData ->
  let numFrames := JS.ceil_div (length inputData) 128 in
  let run := Wasm.render_sequence numFrames p (Store.getGranularParams s) w in
  Control.processOffline rt s
  = JS.Ok (Wasm.mkRuntime true (Some (fst run)),
           Store.setProcessedBuffer (Some (take (length inputData) (concat (snd run)))) s).
Proof.
  intros Hinst Hbuf Hinit Hmod Hmono numFrames run.
  destruct (ceil_div_128 (length inputData)) as [_ Hbounds].
  destruct (render_sequence_lengths numFrames p (Store.getGranularParams s) w)
    as (_ & _ & Hcat).
  unfold Control.processOffline.
  rewrite Hinst, Hbuf. unfold Wasm.isWasmInitialized. rewrite Hinit. cbn [negb].
  rewrite Hmono. unfold mbind at 1, result_bind at 1. cbn [JS.bind].
  destruct rt as [init m]. simpl in Hinit, Hmod. subst init m.
  fold numFrames.
  rewrite (render_loop p (Store.getGranularParams s) numFrames 0 true w)
    by (rewrite length_replicate; lia).
  unfold mbind, result_bind. cbn [JS.bind].
  do 3 f_equal. unfold JS.slice0.
  rewrite Nat.mul_0_l, take_0, app_nil_l.
  rewrite drop_ge by (rewrite length_replicate; lia).
  by rewrite app_nil_r.
Qed.

(** The render loop never changes the length of the output array. *)
Lemma render_loop_keeps_length inst params k :
  forall lo rt (buf : list T) rt' buf',
    JS.for_loop_r k lo (Control.render_into inst params) (rt, buf) = JS.Ok (rt', buf') ->
    length buf' = length buf.
Proof.
  induction k as [|k IH]; intros lo rt buf rt' buf' Hrun.
  - simpl in Hrun. by inversion Hrun.
  - cbn [JS.for_loop_r] in Hrun. unfold Control.render_into at 1 in Hrun.
    cbn [fst snd] in Hrun.
    destruct (Wasm.renderFrame rt inst params) as [[rt1 frame]|msg]; [|discriminate].
    unfold mbind, result_bind in Hrun. cbn [JS.bind] in Hrun.
    unfold JS.typed_set in Hrun.
    destruct (Nat.leb_spec (lo * 128 + length frame) (length buf)); [|discriminate].
    cbn [JS.bind] in Hrun. apply IH in Hrun. rewrite Hrun.
    rewrite !length_app, length_take, length_drop. lia.
Qed.

(** X18: [processOffline] changes nothing in the store but the processed
    buffer.  Whenever it returns, either the store is as it was (one of the
    guards held), or a buffer was published that has exactly as many
    samples as the mono data of the loaded audio; the parameters, the
    selection, the audio buffer and the instance are never written. *)
Theorem processOffline_only_publishes (rt rt' : Wasm.Runtime W)
    (s s' : Store.GranularState T) :
  Control.processOffline rt s = JS.Ok (rt', s') ->
  (s' = s
   \/ exists audioBuffer inputData trimmed,
        Store.audioBuffer s = Some audioBuffer
        /\ Audio.audioBufferToFloat32Array audioBuffer = JS.Ok inputData
        /\ length trimmed = length inputData
        /\ s' = Store.setProcessedBuffer (Some trimmed) s)
  /\ Store.getGranularParams s' = Store.getGranularParams s
  /\ Store.audioBuffer s' = Store.audioBuffer s
  /\ Store.granularInstance s' = Store.granularInstance s.
Proof.
  intros Hrun.
  assert (Hcases : s' = s
   \/ exists audioBuffer inputData trimmed,
        Store.audioBuffer s = Some audioBuffer
        /\ Audio.audioBufferToFloat32Array audioBuffer = JS.Ok inputData
        /\ length trimmed = length inputData
        /\ s' = Store.setProcessedBuffer (Some trimmed) s).
  { unfold Control.processOffline in Hrun.
    destruct (Store.granularInstance s) as [inst|]; [|left; by inversion Hrun].
    destruct (Store.audioBuffer s) as [audioBuffer|] eqn:Hbuf; [|left; by inversion Hrun].
    destruct (negb (Wasm.isWasmInitialized rt)); [left; by inversion Hrun|].
    destruct (Audio.audioBufferToFloat32Array audioBuffer) as [inputData|msg] eqn:Hmono;
      [|discriminate].
    unfold mbind at 1, result_bind at 1 in Hrun. cbn [JS.bind] in Hrun.
    destruct (JS.for_loop_r _ _ _ _) as [[rt2 out]|msg] eqn:Hloop; [|discriminate].
    unfold mbind, result_bind in Hrun. cbn [JS.bind] in Hrun.
    inversion Hrun; subst. right.
    exists audioBuffer, inputData, (JS.slice0 out (length inputData)).
    repeat split; try done.
    apply render_loop_keeps_length in Hloop.
    unfold JS.slice0. rewrite length_take, Hloop, length_replicate.
    destruct (ceil_div_128 (length inputData)) as [_ Hbounds]. lia. }
  split; [exact Hcases|].
  destruct Hcases as [->|(audioBuffer & inputData & trimmed & _ & _ & _ & ->)]; [done|].
  by destruct s.
Qed.

(** X19: a freed instance makes the offline pass fail loudly.  With the
    engine loaded, audio loaded (at least one sample) and the store holding
    an instance that has been freed, [processOffline] throws "Granular
    instance has been freed"; nothing is published. *)
Theorem processOffline_on_freed_instance (rt : Wasm.Runtime W)
    (s : Store.GranularState T) (audioBuffer : Audio.AudioBuffer T)
    (x : T) (inputData : list T) :
  Store.granularInstance s = Some (Wasm.mkInstance None) ->
  Store.audioBuffer s = Some audioBuffer ->
  Wasm.wasmInitialized rt = true ->
  Audio.audioBufferToFloat32Array audioBuffer = JS.Ok (x :: inputData) ->
  Control.processOffline rt s = JS.Throw Wasm.freed_message.
Proof.
  intros Hinst Hbuf Hinit Hmono. unfold Control.processOffline.
  rewrite Hinst, Hbuf. unfold Wasm.isWasmInitialized. rewrite Hinit. cbn [negb].
  rewrite Hmono. unfold mbind at 1, result_bind at 1. cbn [JS.bind].
  destruct (ceil_div_128 (length (x :: inputData))) as [_ Hbounds].
  destruct (JS.ceil_div (length (x :: inputData)) 128) as [|k] eqn:Hk;
    [simpl in Hbounds; lia|].
  reflexivity.
Qed.

(** X20: the engine is not rewound between passes.  Two offline passes in
    a row on a live instance step the engine [numFrames] times each: the
    second pass starts from the engine state the first one left, publishes
    the frames rendered from there, and leaves the engine after
    [numFrames + numFrames] renders. *)
Theorem processOffline_twice (rt : Wasm.Runtime W) (s : Store.GranularState T)
    (p : Z) (w : W) (audioBuffer : Audio.AudioBuffer T) (inputData : list T) :
  Store.granularInstance s = Some (Wasm.mkInstance (Some p)) ->
  Store.audioBuffer s = Some audioBuffer ->
  Wasm.wasmInitialized rt = true ->
  Wasm.wasmModule rt = Some w ->
  Audio.audioBufferToFloat32Array audioBuffer = JS.Ok inputData ->
  let numFrames := JS.ceil_div (length inputData) 128 in
  let params := Store.getGranularParams s in
  let step := fun w => fst (Wasm.render_granular w p (Wasm.render_args params)) in
  exists rt1 s1 rt2 s2,
    Control.processOffline rt s = JS.Ok (rt1, s1)
    /\ Control.processOffline rt1 s1 = JS.Ok (rt2, s2)
    /\ Wasm.wasmModule rt1 = Some (Nat.iter numFrames step w)
    /\ Wasm.wasmModule rt2 = Some (Nat.iter (numFrames + numFrames) step w)
    /\ Store.processedBuffer s2
       = Some (take (length inputData)
                 (concat (snd (Wasm.render_sequence numFrames p params
                                 (Nat.iter numFrames step w))))).
Proof.
  intros Hinst Hbuf Hinit Hmod Hmono numFrames params step.
  set (run1 := Wasm.render_sequence numFrames p params w).
  set (s1 := Store.setProcessedBuffer
               (Some (take (length inputData) (concat (snd run1)))) s).
  set (run2 := Wasm.render_sequence numFrames p params (fst run1)).
  assert (Hs1 : Store.getGranularParams s1 = params
                /\ Store.granularInstance s1 = Some (Wasm.mkInstance (Some p))
                /\ Store.audioBuffer s1 = Some audioBuffer).
  { unfold s1. destruct s. simpl in *. by repeat split. }
  destruct Hs1 as (Hparams & Hinst1 & Hbuf1).
  assert (Hstate : fst run1 = Nat.iter numFrames step w)
    by apply render_sequence_state.
  exists (Wasm.mkRuntime true (Some (fst run1))), s1,
         (Wasm.mkRuntime true (Some (fst run2))),
         (Store.setProcessedBuffer
            (Some (take (length inputData) (concat (snd run2)))) s1).
  split; [by apply (processOffline_live rt s p w audioBuffer inputData)|].
  split.
  { pose proof (processOffline_live (Wasm.mkRuntime true (Some (fst run1))) s1 p
                  (fst run1) audioBuffer inputData Hinst1 Hbuf1 eq_refl eq_refl Hmono)
      as Hsecond.
    cbv zeta in Hsecond. rewrite Hparams in Hsecond. exact Hsecond. }
  cbn [Wasm.wasmModule].
  split; [by rewrite Hstate|]. split.
  - unfold run2. rewrite render_sequence_state. fold step.
    by rewrite Hstate, Nat.iter_add.
  - unfold run2. rewrite Hstate. by destruct s1.
Qed.

(** Every well-formed buffer has mono data, as long as the buffer. *)
Lemma downmix_length (buffer : Audio.AudioBuffer T) :
  Audio.wf buffer ->
  exists mono,
    Audio.audioBufferToFloat32Array buffer = JS.Ok mono
    /\ length mono = Audio.ab_length buffer.
Proof.
  intros [Hne Hlen]. destruct buffer as [len rate chans]. simpl in *.
  destruct chans as [|left [|right rest]]; [done| |].
  - exists left. apply Forall_cons in Hlen as [Hl _]. by split.
  - apply Forall_cons in Hlen as [Hl _].
    eexists. split; [by apply (downmix_two_or_more _ left right rest)|].
    by rewrite length_map, length_seq.
Qed.

(** X21: what a file load leaves behind.  With no file selected nothing
    happens.  Once a file is picked the store has an audio context: the one
    it had, or a new one.  A file that then fails to decode changes nothing
    else and is reported.  A decoded buffer is always stored, with the
    selection reset to its full range, also when the upload to the engine
    fails: with a freed instance the store has the new buffer, the engine
    is untouched and the alert carries "Granular instance has been
    freed". *)
Theorem file_load_outcomes (newContext : nat) (rt : Wasm.Runtime W)
    (s : Store.GranularState T) :
  Page.handleFileSelect newContext None rt s = (rt, s, None)
  /\ (forall file,
        is_Some (Store.audioContext
                   (snd (fst (Page.handleFileSelect newContext (Some file) rt s)))))
  /\ (forall context, Store.audioContext s = Some context ->
        Page.with_audio_context newContext s = s)
  /\ (forall message,
        Page.handleFileSelect newContext (Some (JS.Throw message)) rt s
        = (rt, Page.with_audio_context newContext s, Some message))
  /\ (forall buffer,
        snd (fst (Page.handleFileSelect newContext (Some (JS.Ok buffer)) rt s))
        = Store.setAudioBuffer (Some buffer) (Page.with_audio_context newContext s))
  /\ (forall buffer,
        Audio.wf buffer ->
        Store.granularInstance s = Some (Wasm.mkInstance None) ->
        Wasm.wasmInitialized rt = true ->
        Page.handleFileSelect newContext (Some (JS.Ok buffer)) rt s
        = (rt, Store.setAudioBuffer (Some buffer) (Page.with_audio_context newContext s),
           Some Wasm.freed_message)).
Proof.
  assert (Hstored : forall buffer,
    snd (fst (Page.handleFileSelect newContext (Some (JS.Ok buffer)) rt s))
    = Store.setAudioBuffer (Some buffer) (Page.with_audio_context newContext s)).
  { intros buffer. unfold Page.handleFileSelect.
    destruct (Store.granularInstance s); [|done].
    destruct (Wasm.isWasmInitialized rt); [|done].
    by destruct (_ ≫= _). }
  assert (Hcontext : is_Some (Store.audioContext (Page.with_audio_context newContext s))).
  { unfold Page.with_audio_context.
    destruct (Store.audioContext s) as [context|] eqn:Hc; [by rewrite Hc|].
    by destruct s. }
  split; [done|]. split.
  { intros [buffer|message].
    - rewrite Hstored. destruct Hcontext as [context Hc].
      exists context. destruct buffer.
      destruct (Page.with_audio_context newContext s). simpl in *. exact Hc.
    - exact Hcontext. }
  split.
  { intros context Hc. unfold Page.with_audio_context. by rewrite Hc. }
  split; [done|]. split; [exact Hstored|].
  intros buffer Hwf Hinst Hinit. unfold Page.handleFileSelect.
  rewrite Hinst. unfold Wasm.isWasmInitialized. rewrite Hinit.
  destruct (downmix_length buffer Hwf) as (mono & -> & _).
  reflexivity.
Qed.

(** X22: load, then render, then look.  With the engine loaded and a live
    instance in the store, loading a well-formed buffer raises no alert,
    and the offline pass that follows publishes a processed buffer of
    exactly the buffer's length; that processed buffer is what the page
    shows, so the data length the selection editor works with equals the
    end of the freshly reset selection. *)
Theorem load_then_render (newContext : nat) (rt : Wasm.Runtime W)
    (s : Store.GranularState T) (p : Z) (w : W) (buffer : Audio.AudioBuffer T) :
  Audio.wf buffer ->
  Store.granularInstance s = Some (Wasm.mkInstance (Some p)) ->
  Wasm.wasmInitialized rt = true ->
  Wasm.wasmModule rt = Some w ->
  exists rt1 s1 rt2 s2 processed,
    Page.handleFileSelect newContext (Some (JS.Ok buffer)) rt s = (rt1, s1, None)
    /\ Control.processOffline rt1 s1 = JS.Ok (rt2, s2)
    /\ Page.shown_buffer s2 = Some (inr processed)
    /\ Page.waveform_data (inr processed) = JS.Ok processed
    /\ length processed = Audio.ab_length buffer
    /\ Store.selectionStartSampleIx s2 = 0%Z
    /\ Store.selectionEndSampleIx s2 = Z.of_nat (length processed).
Proof.
  intros Hwf Hinst Hinit Hmod.
  destruct (downmix_length buffer Hwf) as (mono & Hmono & Hlen).
  destruct rt as [init m]. simpl in Hinit, Hmod. subst init m.
  unfold Page.handleFileSelect. rewrite Hinst. cbn [Wasm.isWasmInitialized Wasm.wasmInitialized].
  rewrite Hmono. unfold mbind at 1, result_bind at 1. cbn [JS.bind].
  unfold Wasm.setWaveform at 1. cbn [Wasm.instancePtr Wasm.wasmModule Wasm.wasmInitialized].
  destruct (Wasm.get_granular_waveform_ptr w p (length mono)) as [w1 ptr].
  set (w2 := JS.for_loop 0 (length mono) _ w1).
  set (s1 := Store.setAudioBuffer (Some buffer) (Page.with_audio_context newContext s)).
  assert (Hs1 : Store.granularInstance s1 = Some (Wasm.mkInstance (Some p))
                /\ Store.audioBuffer s1 = Some buffer
                /\ Store.selectionStartSampleIx s1 = 0%Z
                /\ Store.selectionEndSampleIx s1 = Z.of_nat (Audio.ab_length buffer)).
  { unfold s1, Page.with_audio_context. destruct s. simpl in *.
    destruct audioContext; simpl; by repeat split. }
  destruct Hs1 as (Hinst1 & Hbuf1 & Hstart1 & Hend1).
  pose proof (processOffline_live (Wasm.mkRuntime true (Some w2)) s1 p w2 buffer mono
                Hinst1 Hbuf1 eq_refl eq_refl Hmono) as Hrun.
  cbv zeta in Hrun.
  set (processed := take (length mono) _) in Hrun.
  assert (Hprocessed : length processed = length mono).
  { unfold processed. rewrite length_take.
    destruct (render_sequence_lengths (JS.ceil_div (length mono) 128) p
                (Store.getGranularParams s1) w2) as (_ & _ & ->).
    destruct (ceil_div_128 (length mono)) as [_ Hbounds]. lia. }
  eexists _, s1, _, _, processed.
  split; [reflexivity|]. split; [exact Hrun|].
  split; [by destruct s1|]. split; [done|].
  split; [lia|].
  split; [by destruct s1|].
  rewrite Hprocessed, Hlen. by destruct s1.
Qed.

(** X23: a processed buffer outlives the audio it was made from.  Loading
    a new buffer keeps the processed buffer of the previous one, and the
    page keeps showing it until the next offline pass, while the selection
    already spans the new buffer. *)
Theorem stale_processed_buffer_is_shown (s : Store.GranularState T)
    (buffer : Audio.AudioBuffer T) (processed : list T) :
  Store.processedBuffer s = Some processed ->
  let s' := Store.setAudioBuffer (Some buffer) s in
  Store.processedBuffer s' = Some processed
  /\ Page.shown_buffer s' = Some (inr processed)
  /\ Page.waveform_data (inr processed) = JS.Ok processed
  /\ Store.selectionEndSampleIx s' = Z.of_nat (Audio.ab_length buffer).
Proof.
  intros Hp. destruct s. simpl in *. subst. by repeat split.
Qed.

(** X24: [float32ArrayToAudioBuffer] and the down-mix undo each other.  At
    a sample rate the platform supports (44100 when none is given), a
    non-empty array becomes a well-formed mono buffer of the same length
    and that sample rate whose mono data is the array again; an empty
    array, and any array at an unsupported rate, is rejected by the
    platform. *)
Theorem float32Array_round_trip (supported : Z -> bool) (x : T) (data : list T)
    (sampleRate : option Z) :
  supported (default 44100%Z sampleRate) = true ->
  exists buffer,
    AudioOut.float32ArrayToAudioBuffer supported (x :: data) sampleRate = JS.Ok buffer
    /\ Audio.wf buffer
    /\ Audio.numberOfChannels buffer = 1
    /\ Audio.ab_length buffer = length (x :: data)
    /\ Audio.ab_sampleRate buffer = default 44100%Z sampleRate
    /\ Audio.audioBufferToFloat32Array buffer = JS.Ok (x :: data)
    /\ AudioOut.float32ArrayToAudioBuffer supported (@nil T) sampleRate
       = JS.Throw "NotSupportedError"
    /\ (forall rate, supported rate = false ->
          AudioOut.float32ArrayToAudioBuffer supported (x :: data) (Some rate)
          = JS.Throw "NotSupportedError").
Proof.
  intros Hrate.
  unfold AudioOut.float32ArrayToAudioBuffer, AudioOut.createBuffer.
  cbn [length Nat.eqb orb]. rewrite Hrate. cbn [negb].
  unfold mbind, result_bind. cbn [JS.bind].
  unfold AudioOut.copyToChannel.
  cbn [Audio.ab_channels replicate lookup list_lookup Audio.ab_length Audio.ab_sampleRate].
  assert (Hchannel :
    take (length (s_zero :: replicate (length data) s_zero)) (x :: data)
    ++ drop (length (x :: data)) (s_zero :: replicate (length data) s_zero)
    = x :: data).
  { rewrite firstn_all2 by (cbn [length]; rewrite length_replicate; lia).
    rewrite drop_ge by (cbn [length]; rewrite length_replicate; lia).
    apply app_nil_r. }
  rewrite Hchannel. cbn [insert list_insert].
  eexists. split; [reflexivity|].
  split; [split; [done|by repeat constructor]|].
  repeat split; try done.
  intros rate Hno. unfold default. cbn [from_option id]. by rewrite Hno.
Qed.

End PageFacts.

Lemma processOffline_only_publishes_witness :
  exists rt' s',
    Control.processOffline TestEngine.runtime (TestEngine.loaded 4) = JS.Ok (rt', s')
    /\ Store.getGranularParams s' = Store.getGranularParams (TestEngine.loaded 4)
    /\ Store.audioBuffer s' = Store.audioBuffer (TestEngine.loaded 4)
    /\ Store.granularInstance s' = Store.granularInstance (TestEngine.loaded 4).
Proof.
  exists (Wasm.mkRuntime true (Some (TestEngine.mkEngine 1 []))),
         (Store.setProcessedBuffer (Some (replicate 4 (Some 1%Q))) (TestEngine.loaded 4)).
  assert (Hrun : Control.processOffline TestEngine.runtime (TestEngine.loaded 4)
                 = JS.Ok (Wasm.mkRuntime true (Some (TestEngine.mkEngine 1 [])),
                          Store.setProcessedBuffer (Some (replicate 4 (Some 1%Q)))
                            (TestEngine.loaded 4)))
    by reflexivity.
  split; [exact Hrun|].
  exact (proj2 (processOffline_only_publishes _ _ _ _ Hrun)).
Defined.

Lemma processOffline_on_freed_instance_witness :
  let s := Store.setAudioBuffer (Some (TestEngine.mono_buffer 4))
             (Store.setGranularInstance (Some (Wasm.mkInstance None)) Store.initialState) in
  Control.processOffline TestEngine.runtime s = JS.Throw Wasm.freed_message.
Proof.
  intros s.
  exact (processOffline_on_freed_instance TestEngine.runtime s (TestEngine.mono_buffer 4)
           (Some 1%Q) (replicate 3 (Some 1%Q)) eq_refl eq_refl eq_refl eq_refl).
Defined.

Lemma processOffline_twice_witness :
  let s := TestEngine.loaded 200 in
  let params := Store.getGranularParams s in
  exists rt1 s1 rt2 s2,
    Control.processOffline TestEngine.runtime s = JS.Ok (rt1, s1)
    /\ Control.processOffline rt1 s1 = JS.Ok (rt2, s2)
    /\ Wasm.wasmModule rt1 = Some (TestEngine.mkEngine 2 [])
    /\ Wasm.wasmModule rt2 = Some (TestEngine.mkEngine 4 [])
    /\ Store.processedBuffer s2
       = Some (take 200 (concat (snd (Wasm.render_sequence 2 64%Z params
                                        (TestEngine.mkEngine 2 []))))).
Proof.
  intros s params.
  exact (processOffline_twice TestEngine.runtime s 64%Z (TestEngine.mkEngine 0 [])
           (TestEngine.mono_buffer 200) (replicate 200 (Some 1%Q))
           eq_refl eq_refl eq_refl eq_refl eq_refl).
Defined.

Lemma load_then_render_witness :
  let s := Store.setGranularInstance (Some TestEngine.instance) Store.initialState in
  Audio.wf stereo_pair
  /\ exists rt1 s1 rt2 s2 processed,
       Page.handleFileSelect 7 (Some (JS.Ok stereo_pair)) TestEngine.runtime s
       = (rt1, s1, None)
       /\ Control.processOffline rt1 s1 = JS.Ok (rt2, s2)
       /\ Page.shown_buffer s2 = Some (inr processed)
       /\ Page.waveform_data (inr processed) = JS.Ok processed
       /\ length processed = Audio.ab_length stereo_pair
       /\ Store.selectionStartSampleIx s2 = 0%Z
       /\ Store.selectionEndSampleIx s2 = Z.of_nat (length processed).
Proof.
  intros s.
  assert (Hwf : Audio.wf stereo_pair).
  { split; [done|]. repeat constructor. }
  split; [exact Hwf|].
  exact (load_then_render 7 TestEngine.runtime s 64%Z (TestEngine.mkEngine 0 [])
           stereo_pair Hwf eq_refl eq_refl eq_refl).
Defined.

Lemma stale_processed_buffer_is_shown_witness :
  let s := Store.setProcessedBuffer (Some ones) (TestEngine.loaded 128) in
  let s' := Store.setAudioBuffer (Some (TestEngine.mono_buffer 1000)) s in
  Store.processedBuffer s' = Some ones
  /\ Page.shown_buffer s' = Some (inr ones)
  /\ Page.waveform_data (inr ones) = JS.Ok ones
  /\ Store.selectionEndSampleIx s' = Z.of_nat (Audio.ab_length (TestEngine.mono_buffer 1000)).
Proof.
  intros s s'.
  exact (stale_processed_buffer_is_shown s (TestEngine.mono_buffer 1000) ones eq_refl).
Defined.

(** ** The PixiJS waveform *)

(** X25: the 800 columns of the PixiJS waveform split the data into
    consecutive blocks of [samplesPerPixel] samples: sample [i] is summed
    for column [x] exactly when it exists and [i / samplesPerPixel = x].
    For data of 800 samples or more, the blocks stop at [800 *
    samplesPerPixel], so fewer than 800 samples at the end are not drawn. *)
Theorem pixi_columns_partition (len x i : nat) :
  x < PixiWaveform.width ->
  let spp := PixiWaveform.samplesPerPixel len in
  (fst (PixiWaveform.segment len x) <= i < snd (PixiWaveform.segment len x)
   <-> i < len /\ i / spp = x)
  /\ (PixiWaveform.width <= len ->
      PixiWaveform.width * spp <= len < PixiWaveform.width * spp + PixiWaveform.width).
Proof.
  intros Hx spp. unfold PixiWaveform.segment. cbn [fst snd]. fold spp.
  assert (Hspp : 1 <= spp) by (unfold spp, PixiWaveform.samplesPerPixel; lia).
  split.
  - pose proof (Nat.div_mod_eq i spp) as Hi.
    pose proof (Nat.mod_upper_bound i spp ltac:(lia)) as Hr.
    split.
    + intros [Hlo Hhi]. split; [lia|].
      symmetry. apply (Nat.div_unique i spp x (i - x * spp)); lia.
    + intros [Hlen Hdiv]. rewrite Hdiv in Hi. nia.
  - intros Hlong. unfold spp, PixiWaveform.samplesPerPixel, PixiWaveform.width in *.
    pose proof (Nat.div_mod_eq len 800) as Hlen.
    pose proof (Nat.mod_upper_bound len 800 ltac:(lia)) as Hr.
    assert (1 <= len / 800) by (apply Nat.div_le_lower_bound; lia).
    lia.
Qed.

Lemma pixi_columns_partition_witness :
  (fst (PixiWaveform.segment 2000 799) <= 1599 < snd (PixiWaveform.segment 2000 799)
   <-> 1599 < 2000 /\ 1599 / PixiWaveform.samplesPerPixel 2000 = 799)
  /\ (PixiWaveform.width <= 2000 ->
      PixiWaveform.width * PixiWaveform.samplesPerPixel 2000 <= 2000
      < PixiWaveform.width * PixiWaveform.samplesPerPixel 2000 + PixiWaveform.width).
Proof.
  apply (pixi_columns_partition 2000 799 1599). unfold PixiWaveform.width. lia.
Defined.

Lemma file_load_outcomes_witness :
  let s := Store.setGranularInstance (Some (Wasm.mkInstance None))
             (@Store.initialState qsample) in
  Audio.wf stereo_pair
  /\ Store.audioContext s = None
  /\ Page.handleFileSelect 7 (Some (JS.Ok stereo_pair)) TestEngine.runtime s
     = (TestEngine.runtime,
        Store.setAudioBuffer (Some stereo_pair) (Store.setAudioContext (Some 7) s),
        Some Wasm.freed_message)
  /\ Page.handleFileSelect 7 (Some (JS.Throw "EncodingError")) TestEngine.runtime s
     = (TestEngine.runtime, Store.setAudioContext (Some 7) s,
        Some "EncodingError"%string).
Proof.
  intros s.
  assert (Hwf : Audio.wf stereo_pair).
  { split; [done|]. repeat constructor. }
  destruct (file_load_outcomes 7 TestEngine.runtime s)
    as (_ & _ & _ & Hfail & _ & Hfreed).
  split; [exact Hwf|]. split; [reflexivity|]. split.
  - exact (Hfreed stereo_pair Hwf eq_refl eq_refl).
  - exact (Hfail "EncodingError"%string).
Defined.

Lemma float32Array_round_trip_witness :
  let supported := fun rate : Z => ((8000 <=? rate) && (rate <=? 96000))%Z in
  supported 44100%Z = true
  /\ exists buffer,
       AudioOut.float32ArrayToAudioBuffer supported [Some 1%Q; Some 2%Q] None
       = JS.Ok buffer
       /\ Audio.wf buffer
       /\ Audio.numberOfChannels buffer = 1
       /\ Audio.ab_length buffer = 2
       /\ Audio.ab_sampleRate buffer = 44100%Z
       /\ Audio.audioBufferToFloat32Array buffer = JS.Ok [Some 1%Q; Some 2%Q]
       /\ AudioOut.float32ArrayToAudioBuffer supported (@nil qsample) None
          = JS.Throw "NotSupportedError"
       /\ (forall rate, supported rate = false ->
             AudioOut.float32ArrayToAudioBuffer supported [Some 1%Q; Some 2%Q] (Some rate)
             = JS.Throw "NotSupportedError").
Proof.
  intros supported. split; [reflexivity|].
  exact (float32Array_round_trip supported (Some 1%Q) [Some 2%Q] None eq_refl).
Defined.

Lemma initWasm_awaited_and_overlapping_witness :
  let rt := @WasmInit.start nat in
  Wasm.wasmInitialized rt = false
  /\ Wasm.wasmModule
       (WasmInit.initWasm_all [JS.Throw "LinkError"; JS.Ok 1; JS.Ok 2] WasmInit.start)
     = Some 1
  /\ WasmInit.step (Wasm.mkRuntime true (Some 1), []) (WasmInit.Invoke (JS.Ok 2))
     = (Wasm.mkRuntime true (Some 1), [])
  /\ WasmInit.run_schedule
       [WasmInit.Invoke (JS.Ok 1); WasmInit.Invoke (JS.Ok 2);
        WasmInit.Settle 0; WasmInit.Settle 0] (rt, [])
     = (Wasm.mkRuntime true (Some 2), []).
Proof.
  intros rt.
  destruct (@initWasm_awaited_and_overlapping nat) as (Hawaited & Hlate & Hoverlap).
  split; [reflexivity|]. split.
  - exact (proj1 (Hawaited [JS.Throw "LinkError"; JS.Ok 1; JS.Ok 2])).
  - split.
    + exact (Hlate (Wasm.mkRuntime true (Some 1)) [] (JS.Ok 2) eq_refl).
    + exact (proj1 (Hoverlap rt 1 2 eq_refl)).
Defined.

(** The coordinate maps round as binary64 does: the exact quotients
    [175 * 1400 / 1000 = 245] and [29 * 1400 / 1400 = 29] are missed from
    below, as is [58 * 44100 / 1400 = 1827]. *)
Lemma coordinate_maps_round_in_binary64 :
  Waveform.sampleToPixel 1000 175 = 244%Z
  /\ Waveform.sampleToPixel 1400 29 = 28%Z
  /\ Waveform.sampleToPixel 1400 28 = 28%Z
  /\ Waveform.pixelToSample 44100 58 = 1826%Z.
Proof. by vm_compute. Qed.
